(** * cisco_csaf_dl.py: a shallow embedding and its checked properties

    The script downloads Cisco security advisories (CSAF) through the OpenVuln
    API.  It throttles its calls with [RateLimiter], obtains a bearer token
    with [get_new_token], fetches and decodes the advisories in
    [download_csaf], writes one file per advisory in [process_advisories], and
    [main] retries the download once with a fresh token.

    The embedding follows the Python text function by function.  Python
    values that come out of [json.load] are the type [json]; the outside
    world (wall clock, file system, network, standard output) is the record
    [World]; a Python computation is a function from the world to a result
    (a value or a raised exception) and the world it leaves behind. *)

From Stdlib Require Import ZArith List String Ascii Lia Bool Floats.
From stdpp Require Import base gmap strings list.

Open Scope string_scope.
Open Scope list_scope.
Open Scope Z_scope.

(** ** Python values *)

(** What [json.load] / [response.json()] can return; [JNull] is [None]. *)
#[warnings="-register-all"]
Inductive json : Type :=
  | JNull
  | JBool (b : bool)
  | JInt (n : Z)
  | JFloat (f : float)
  | JStr (s : string)
  | JList (xs : list json)
  | JDict (kvs : list (string * json)).

(** Exceptions.  The handlers of the script only tell
    [requests.exceptions.RequestException] (and its subclasses: ConnectionError,
    Timeout, HTTPError, ...) from every other [Exception]. *)
Record exn : Type := Exn { is_request_exception : bool; exn_name : string }.

Definition TypeError : exn := Exn false "TypeError".
Definition KeyError : exn := Exn false "KeyError".
Definition ValueError : exn := Exn false "ValueError".
Definition OverflowError : exn := Exn false "OverflowError".
Definition IsADirectoryError : exn := Exn false "IsADirectoryError".
Definition JSONDecodeError : exn := Exn false "json.JSONDecodeError".
Definition HTTPError : exn := Exn true "requests.exceptions.HTTPError".
Definition ConnectionError : exn := Exn true "requests.exceptions.ConnectionError".

Inductive result (A : Type) : Type :=
  | Ok (a : A)
  | Raise (e : exn).
Arguments Ok {A} a.
Arguments Raise {A} e.

(** [bool(v)] *)
Definition truthy (v : json) : bool :=
  match v with
  | JNull => false
  | JBool b => b
  | JInt n => negb (n =? 0)
  | JFloat f => negb (PrimFloat.eqb f 0%float)
  | JStr s => negb (String.eqb s "")
  | JList xs => match xs with [] => false | _ => true end
  | JDict kvs => match kvs with [] => false | _ => true end
  end.

(** [d.get(key)] on the items of a dict *)
Fixpoint dict_get (key : string) (kvs : list (string * json)) : option json :=
  match kvs with
  | [] => None
  | (k, v) :: rest => if String.eqb k key then Some v else dict_get key rest
  end.

(** [needle in haystack] for two strings *)
Fixpoint str_contains (needle haystack : string) : bool :=
  String.prefix needle haystack ||
  match haystack with
  | EmptyString => false
  | String _ rest => str_contains needle rest
  end.

(** [key in container] for a string [key] *)
Definition py_in (key : string) (container : json) : result bool :=
  match container with
  | JDict kvs => Ok (match dict_get key kvs with Some _ => true | None => false end)
  | JList xs =>
      Ok (existsb (fun x => match x with JStr s => String.eqb s key | _ => false end) xs)
  | JStr s => Ok (str_contains key s)
  | _ => Raise TypeError
  end.

(** [container[key]] for a string [key] *)
Definition py_getitem (container : json) (key : string) : result json :=
  match container with
  | JDict kvs => match dict_get key kvs with Some v => Ok v | None => Raise KeyError end
  | _ => Raise TypeError
  end.

Fixpoint chars (s : string) : list json :=
  match s with
  | EmptyString => []
  | String c rest => JStr (String c EmptyString) :: chars rest
  end.

(** [len(v)] *)
Definition py_len (v : json) : result nat :=
  match v with
  | JList xs => Ok (List.length xs)
  | JDict kvs => Ok (List.length kvs)
  | JStr s => Ok (String.length s)
  | _ => Raise TypeError
  end.

(** the items a [for] loop over [v] visits *)
Definition py_iter (v : json) : result (list json) :=
  match v with
  | JList xs => Ok xs
  | JDict kvs => Ok (map (fun kv => JStr (fst kv)) kvs)
  | JStr s => Ok (chars s)
  | _ => Raise TypeError
  end.

(** [os.path.join(a, b)] (posixpath) *)
Definition os_path_join (a b : string) : string :=
  if String.prefix "/" b then b
  else if String.eqb a "" || String.eqb (substring (String.length a - 1) 1 a) "/" then a +:+ b
  else a +:+ "/" +:+ b.

(** ** The world *)

(** One microsecond is the resolution of [datetime]; a [datetime] is the
    number of microseconds since 0001-01-01T00:00:00 and a [timedelta] a
    number of microseconds. *)
Definition SECOND : Z := 1000000.
Definition MINUTE : Z := 60 * SECOND.
Definition DAY : Z := 86400 * SECOND.

Record RateLimiter : Type := mkRateLimiter {
  second_timestamp : Z;
  second_counter : Z;
  minute_timestamp : Z;
  minute_counter : Z;
  day_timestamp : Z;
  day_counter : Z
}.

(** The three limits are set once in [__init__] and never assigned again. *)
Definition SECOND_LIMIT : Z := 5.
Definition MINUTE_LIMIT : Z := 30.
Definition DAY_LIMIT : Z := 5000.

(** A file holds the JSON value its text decodes to, or text that is not
    JSON ([None]). *)
Inductive fnode : Type :=
  | Dir
  | File (content : option json).

Record response : Type := mkResponse {
  status_code : Z;
  body : result json      (* what [response.json()] returns or raises *)
}.

(** How one HTTP exchange ends: with a response, or with an exception raised
    by [requests.get] / [requests.post] before any response exists. *)
Inductive http_outcome : Type :=
  | Responds (r : response)
  | Fails (e : exn).

(** Arguments of an f-string. *)
Inductive fmtarg : Type :=
  | FStr (s : string)
  | FVal (v : json)
  | FType (v : json)        (* [type(v)] *)
  | FDump (v : json)        (* [json.dumps(v, indent=2)[:500]] *)
  | FExn (e : exn)
  | FLen (n : nat)
  | FSeconds (us : Z).      (* a float number of seconds, [:.2f] *)

(** What the script does to the outside, in the order it does it.  [Enter]
    marks the entry into a function of the script; it is not an effect of the
    program and only serves to count calls. *)
Inductive event : Type :=
  | Enter (fn : string)
  | Print (text : string) (args : list fmtarg)
  | Traceback (e : exn)
  | Sleep (us : Z)
  | Makedirs (path : string)
  | ReadFile (path : string)
  | WriteFile (path : string) (content : json)
  | HttpGet (url : string) (headers : list (string * string))
  | HttpPost (url : string) (data : list (string * json)) (headers : list (string * string)).

(** The clock is simulated: it moves when the program sleeps (and when a
    schedule says so between two calls), not while statements execute.
    [network] lists the outcomes of the HTTP exchanges to come.  [limiter] is
    the one [RateLimiter] object of the process, which [main] creates and
    passes by reference. *)
Record World : Type := mkWorld {
  clock : Z;
  fs : gmap string fnode;
  network : list http_outcome;
  limiter : RateLimiter;
  trace : list event
}.

(** ** Computations *)

Definition M (A : Type) : Type := World -> result A * World.

Definition ret {A} (a : A) : M A := fun w => (Ok a, w).

Definition bind {A B} (m : M A) (k : A -> M B) : M B :=
  fun w =>
    match m w with
    | (Ok a, w') => k a w'
    | (Raise e, w') => (Raise e, w')
    end.

Definition raise {A} (e : exn) : M A := fun w => (Raise e, w).

Definition lift {A} (r : result A) : M A := fun w => (r, w).

(** [try: body  except Exception as e: handler e]; the state reached when the
    exception was raised is the state the handler starts from. *)
Definition try_except {A} (body : M A) (handler : exn -> M A) : M A :=
  fun w =>
    match body w with
    | (Ok a, w') => (Ok a, w')
    | (Raise e, w') => handler e w'
    end.

Declare Scope py_scope.
Delimit Scope py_scope with py.
Notation "x ← y ; z" := (bind y (fun x => z))
  (at level 20, y at level 100, z at level 200, only parsing) : py_scope.
Notation "x ;; z" := (bind x (fun _ => z))
  (at level 100, z at level 200, only parsing, right associativity) : py_scope.
Open Scope py_scope.

Definition when (b : bool) (m : M unit) : M unit := if b then m else ret tt.

Fixpoint for_each {A} (xs : list A) (body : A -> M unit) : M unit :=
  match xs with
  | [] => ret tt
  | x :: rest => body x;; for_each rest body
  end.

Definition emit (e : event) : M unit :=
  fun w => (Ok tt, mkWorld (clock w) (fs w) (network w) (limiter w) (trace w ++ [e])).

Definition print (text : string) (args : list fmtarg) : M unit := emit (Print text args).

Definition enter (fn : string) : M unit := emit (Enter fn).

(** [datetime.now()] *)
Definition datetime_now : M Z := fun w => (Ok (clock w), w).

(** [time.sleep(secs)]: the simulated clock advances by exactly the time
    asked for. *)
Definition time_sleep (us : Z) : M unit :=
  if us <? 0 then raise ValueError
  else fun w => (Ok tt, mkWorld (clock w + us) (fs w) (network w) (limiter w) (trace w ++ [Sleep us])).

(** Reading and assigning the attributes of [self]. *)
Definition attr (field : RateLimiter -> Z) : M Z := fun w => (Ok (field (limiter w)), w).

Definition assign (f : RateLimiter -> RateLimiter) : M unit :=
  fun w => (Ok tt, mkWorld (clock w) (fs w) (network w) (f (limiter w)) (trace w)).

Definition set_second_timestamp (v : Z) : M unit :=
  assign (fun r => mkRateLimiter v (second_counter r) (minute_timestamp r) (minute_counter r)
                                 (day_timestamp r) (day_counter r)).
Definition set_second_counter (v : Z) : M unit :=
  assign (fun r => mkRateLimiter (second_timestamp r) v (minute_timestamp r) (minute_counter r)
                                 (day_timestamp r) (day_counter r)).
Definition set_minute_timestamp (v : Z) : M unit :=
  assign (fun r => mkRateLimiter (second_timestamp r) (second_counter r) v (minute_counter r)
                                 (day_timestamp r) (day_counter r)).
Definition set_minute_counter (v : Z) : M unit :=
  assign (fun r => mkRateLimiter (second_timestamp r) (second_counter r) (minute_timestamp r) v
                                 (day_timestamp r) (day_counter r)).
Definition set_day_timestamp (v : Z) : M unit :=
  assign (fun r => mkRateLimiter (second_timestamp r) (second_counter r) (minute_timestamp r)
                                 (minute_counter r) v (day_counter r)).
Definition set_day_counter (v : Z) : M unit :=
  assign (fun r => mkRateLimiter (second_timestamp r) (second_counter r) (minute_timestamp r)
                                 (minute_counter r) (day_timestamp r) v).

(** ** class RateLimiter *)

(** [RateLimiter.__init__] *)
Definition RateLimiter_init : M unit :=
  enter "RateLimiter.__init__";;
  t ← datetime_now; set_second_timestamp t;;
  set_second_counter 0;;
  t ← datetime_now; set_minute_timestamp t;;
  set_minute_counter 0;;
  t ← datetime_now; set_day_timestamp t;;
  set_day_counter 0.

(** [RateLimiter.wait_if_needed].  [(a - b).total_seconds() >= n] is
    [n * SECOND <= a - b] on microseconds, and [sleep_time] is kept in
    microseconds. *)
Definition wait_if_needed : M unit :=
  enter "wait_if_needed";;
  current_time ← datetime_now;
  (* Reset counters if time periods have elapsed *)
  ts ← attr second_timestamp;
  when (SECOND <=? current_time - ts)
    (set_second_counter 0;; set_second_timestamp current_time);;
  ts ← attr minute_timestamp;
  when (MINUTE <=? current_time - ts)
    (set_minute_counter 0;; set_minute_timestamp current_time);;
  ts ← attr day_timestamp;
  when (DAY <=? current_time - ts)
    (set_day_counter 0;; set_day_timestamp current_time);;
  (* Check second limit *)
  c ← attr second_counter;
  when (SECOND_LIMIT <=? c)
    (ts ← attr second_timestamp;
     let sleep_time := SECOND - (current_time - ts) in
     when (0 <? sleep_time)
       (print "Rate limit approaching: Waiting " [FSeconds sleep_time; FStr " seconds"];;
        time_sleep sleep_time;;
        set_second_counter 0;;
        t ← datetime_now; set_second_timestamp t));;
  (* Check minute limit *)
  c ← attr minute_counter;
  when (MINUTE_LIMIT <=? c)
    (ts ← attr minute_timestamp;
     let sleep_time := MINUTE - (current_time - ts) in
     when (0 <? sleep_time)
       (print "Minute rate limit reached: Waiting " [FSeconds sleep_time; FStr " seconds"];;
        time_sleep sleep_time;;
        set_minute_counter 0;;
        t ← datetime_now; set_minute_timestamp t));;
  (* Check day limit *)
  c ← attr day_counter;
  when (DAY_LIMIT <=? c)
    (ts ← attr day_timestamp;
     let sleep_time := DAY - (current_time - ts) in
     when (0 <? sleep_time)
       (print "Daily rate limit reached: Waiting " [FSeconds sleep_time; FStr " seconds"];;
        time_sleep sleep_time;;
        set_day_counter 0;;
        t ← datetime_now; set_day_timestamp t)).

(** [RateLimiter.increment] *)
Definition increment : M unit :=
  enter "increment";;
  c ← attr second_counter; set_second_counter (c + 1);;
  c ← attr minute_counter; set_minute_counter (c + 1);;
  c ← attr day_counter; set_day_counter (c + 1).

(** ** datetime *)

(** The calendar arithmetic of CPython's [datetime]: proleptic Gregorian
    ordinals, day 1 being 0001-01-01. *)
Definition is_leap (year : Z) : bool :=
  (year mod 4 =? 0) && (negb (year mod 100 =? 0) || (year mod 400 =? 0)).

Definition days_before_year (year : Z) : Z :=
  let y := year - 1 in y * 365 + y / 4 - y / 100 + y / 400.

Definition DAYS_IN_MONTH (month : Z) : Z :=
  match month with
  | 1 => 31 | 2 => 28 | 3 => 31 | 4 => 30 | 5 => 31 | 6 => 30
  | 7 => 31 | 8 => 31 | 9 => 30 | 10 => 31 | 11 => 30 | 12 => 31
  | _ => -1
  end.

Definition DAYS_BEFORE_MONTH (month : Z) : Z :=
  match month with
  | 1 => 0 | 2 => 31 | 3 => 59 | 4 => 90 | 5 => 120 | 6 => 151
  | 7 => 181 | 8 => 212 | 9 => 243 | 10 => 273 | 11 => 304 | 12 => 334
  | _ => -1
  end.

Definition days_before_month (year month : Z) : Z :=
  DAYS_BEFORE_MONTH month + (if (2 <? month) && is_leap year then 1 else 0).

Definition ymd2ord (year month day : Z) : Z :=
  days_before_year year + days_before_month year month + day.

Definition ord2ymd (ordinal : Z) : Z * Z * Z :=
  let n := ordinal - 1 in
  let n400 := n / 146097 in
  let n := n mod 146097 in
  let year := n400 * 400 + 1 in
  let n100 := n / 36524 in
  let n := n mod 36524 in
  let n4 := n / 1461 in
  let n := n mod 1461 in
  let n1 := n / 365 in
  let n := n mod 365 in
  let year := year + n100 * 100 + n4 * 4 + n1 in
  if (n1 =? 4) || (n100 =? 4) then (year - 1, 12, 31)
  else
    let leapyear := (n1 =? 3) && (negb (n4 =? 24) || (n100 =? 3)) in
    let month := Z.shiftr (n + 50) 5 in
    let preceding := DAYS_BEFORE_MONTH month + (if (2 <? month) && leapyear then 1 else 0) in
    if n <? preceding then
      let month := month - 1 in
      let preceding :=
        preceding - (DAYS_IN_MONTH month + (if (month =? 2) && leapyear then 1 else 0)) in
      (year, month, n - preceding + 1)
    else (year, month, n - preceding + 1).

Definition MAXORDINAL : Z := 3652059.   (* 9999-12-31 *)

Definition valid_datetime (t : Z) : Prop := 0 <= t < MAXORDINAL * DAY.

(** [datetime(year, month, day, hour, minute, second)] *)
Definition datetime (year month day hour minute second : Z) : Z :=
  (ymd2ord year month day - 1) * DAY + (hour * 3600 + minute * 60 + second) * SECOND.

(** [timedelta(days=days)] *)
Definition timedelta_days (days : Z) : result Z :=
  if (days <? -999999999) || (999999999 <? days) then Raise OverflowError
  else Ok (days * DAY).

(** [t - delta], a [datetime] minus a [timedelta] *)
Definition datetime_sub (t delta : Z) : result Z :=
  let r := t - delta in
  if (0 <=? r) && (r <? MAXORDINAL * DAY) then Ok r else Raise OverflowError.

Definition digit (n : Z) : string :=
  String (ascii_of_N (48 + Z.to_N (n mod 10))) EmptyString.

(** [t.date()]: year, month and day of a [datetime]; the time of day plays
    no part. *)
Definition date_of (t : Z) : Z * Z * Z := ord2ymd (t / DAY + 1).

(** A calendar date as [YYYY-MM-DD]. *)
Definition iso_date (ymd : Z * Z * Z) : string :=
  let '(year, month, day) := ymd in
  digit (year / 1000) +:+ digit (year / 100) +:+ digit (year / 10) +:+ digit year +:+ "-" +:+
  digit (month / 10) +:+ digit month +:+ "-" +:+
  digit (day / 10) +:+ digit day.

(** [t.strftime('%Y-%m-%d')]: the year on four digits, month and day on two. *)
Definition strftime_Ymd (t : Z) : string := iso_date (date_of t).

(** ** File system and network *)

(** [os.path.exists(path)] *)
Definition os_path_exists (path : string) : M bool :=
  fun w => (Ok (match fs w !! path with Some _ => true | None => false end), w).

(** [os.makedirs(path)].  Creating a path that does not exist succeeds. *)
Definition os_makedirs (path : string) : M unit :=
  fun w =>
    match fs w !! path with
    | Some _ => (Raise (Exn false "FileExistsError"), w)
    | None =>
        (Ok tt, mkWorld (clock w) (<[path := Dir]> (fs w)) (network w) (limiter w)
                        (trace w ++ [Makedirs path]))
    end.

(** [with open(path, "w", encoding="utf-8") as file: json.dump(v, file, indent=2)].
    The file writer is an external collaborator of the script: a write
    succeeds and replaces what the path held. *)
Definition write_json (path : string) (v : json) : M unit :=
  fun w =>
    (Ok tt, mkWorld (clock w) (<[path := File (Some v)]> (fs w)) (network w) (limiter w)
                    (trace w ++ [WriteFile path v])).

(** [with open(path, "r") as f: json.load(f)] *)
Definition read_json (path : string) : M json :=
  emit (ReadFile path);;
  fun w =>
    match fs w !! path with
    | Some (File (Some v)) => (Ok v, w)
    | Some (File None) => (Raise JSONDecodeError, w)
    | Some Dir => (Raise IsADirectoryError, w)
    | None => (Raise (Exn false "FileNotFoundError"), w)
    end.

(** The next HTTP exchange takes its outcome from [network]; when none is
    left the connection fails. *)
Definition exchange : M response :=
  fun w =>
    match network w with
    | [] => (Raise ConnectionError, w)
    | Responds r :: rest => (Ok r, mkWorld (clock w) (fs w) rest (limiter w) (trace w))
    | Fails e :: rest => (Raise e, mkWorld (clock w) (fs w) rest (limiter w) (trace w))
    end.

(** [requests.get(url, headers=headers)] *)
Definition requests_get (url : string) (headers : list (string * string)) : M response :=
  emit (HttpGet url headers);; exchange.

(** [requests.post(url, data=data, headers=headers)] *)
Definition requests_post (url : string) (data : list (string * json))
    (headers : list (string * string)) : M response :=
  emit (HttpPost url data headers);; exchange.

(** [response.raise_for_status()] *)
Definition raise_for_status (r : response) : M unit :=
  if (400 <=? status_code r) && (status_code r <? 600) then raise HTTPError else ret tt.

(** [response.json()] *)
Definition response_json (r : response) : M json := lift (body r).

(** [traceback.print_exc()] *)
Definition traceback_print_exc (e : exn) : M unit := emit (Traceback e).

Definition token_url : string := "https://id.cisco.com/oauth2/default/v1/token".
Definition CISCO_API_BASE_URL : string := "https://apix.cisco.com/security/advisories/v2/all".

(** ** The functions of the script *)

Section Script.

(** [str(v)] for a value that is not a string (the [repr] of numbers, lists,
    dicts, [None], ...); its exact text plays no part in what follows. *)
Variable py_repr : json -> string.

(** [f"{v}"] *)
Definition py_str (v : json) : string :=
  match v with
  | JStr s => s
  | _ => py_repr v
  end.

(** Lines 110-147 of [get_new_token]: the [try] block. *)
Definition token_request : M json :=
  (* Load credentials from json file *)
  found ← os_path_exists "credentials.json";
  if negb found then
    print "Error: credentials.json file not found" [];;
    ret JNull
  else
    credentials ← read_json "credentials.json";
    has_id ← lift (py_in "CLIENT_ID" credentials);
    missing ← (if negb has_id then ret true
               else has_secret ← lift (py_in "CLIENT_SECRET" credentials);
                    ret (negb has_secret));
    if (missing : bool) then
      print "Error: CLIENT_ID or CLIENT_SECRET not found in credentials.json" [];;
      ret JNull
    else
      client_id ← lift (py_getitem credentials "CLIENT_ID");
      client_secret ← lift (py_getitem credentials "CLIENT_SECRET");
      (* Prepare token request *)
      let payload := [("client_id", client_id); ("client_secret", client_secret);
                      ("grant_type", JStr "client_credentials")] in
      let headers := [("Content-Type", "application/x-www-form-urlencoded")] in
      (* Make token request *)
      print "Requesting new access token..." [];;
      response ← requests_post token_url payload headers;
      raise_for_status response;;
      token_data ← response_json response;
      has_token ← lift (py_in "access_token" token_data);
      if (has_token : bool) then
        print "Successfully obtained new access token" [];;
        lift (py_getitem token_data "access_token")
      else
        print "Error: access_token not found in response" [];;
        print "Response: " [FVal token_data];;
        ret JNull.

(** Lines 149-151 of [get_new_token]: the [except] clause. *)
Definition token_error (e : exn) : M json :=
  print "Error generating new token: " [FExn e];;
  ret JNull.

(** [get_new_token()] *)
Definition get_new_token : M json :=
  enter "get_new_token";;
  try_except token_request token_error.

(** The body of the [for] loop of [process_advisories]. *)
Definition loop_body (save_path : string) (advisory : json) : M unit :=
  match advisory with
  | JDict kvs =>
      match dict_get "advisoryId" kvs with
      | Some advisory_id =>
          let filename := os_path_join save_path (py_str advisory_id +:+ ".json") in
          (* Save the advisory content directly *)
          write_json filename advisory;;
          print "Saved advisory: " [FStr filename]
      | None => print "Skipping advisory with missing ID: " [FVal advisory]
      end
  | _ => print "Skipping advisory with missing ID: " [FVal advisory]
  end.

(** [process_advisories(advisories, save_path)] *)
Definition process_advisories (advisories : json) (save_path : string) : M unit :=
  enter "process_advisories";;
  if negb (truthy advisories) then
    print "No advisories found in the response" []
  else
    n ← lift (py_len advisories);
    print "Processing " [FLen n; FStr " advisories"];;
    items ← lift (py_iter advisories);
    for_each items (loop_body save_path).

(** Lines 203-211 of [download_csaf]: the URL for [mode], or [None] where the
    function prints and returns [False]. *)
Definition request_url (mode : string) (days : Z) : M (option string) :=
  if String.eqb mode "all" then ret (Some CISCO_API_BASE_URL)
  else if String.eqb mode "dates" then
    now ← datetime_now;
    delta ← lift (timedelta_days days);
    start_date ← lift (datetime_sub now delta);
    end_date ← datetime_now;
    ret (Some (CISCO_API_BASE_URL +:+ "/lastpublished?startDate=" +:+ strftime_Ymd start_date
               +:+ "&endDate=" +:+ strftime_Ymd end_date))
  else
    print "Invalid mode. Use 'all' or 'dates'." [];;
    ret None.

(** Lines 219-243 of [download_csaf]: what is done with the response. *)
Definition handle_response (response : response) (save_path : string) : M bool :=
  (* Check for 403 Forbidden (token expired or invalid) *)
  if status_code response =? 403 then
    print "Error 403 Forbidden: Token may be expired or invalid" [];;
    ret false
  else
    raise_for_status response;;
    response_data ← response_json response;
    print "Response type: " [FType response_data];;
    match response_data with
    | JDict kvs =>
        match dict_get "advisories" kvs with
        | Some advisories => process_advisories advisories save_path
        | None =>
            print "Unexpected response format: " [FType response_data];;
            print "" [FDump response_data; FStr "..."]
        end
    | JList _ => process_advisories response_data save_path
    | _ =>
        print "Unexpected response format: " [FType response_data];;
        print "" [FDump response_data; FStr "..."]
    end;;
    ret true.

(** Lines 202-243 of [download_csaf]: the [try] block. *)
Definition attempt (save_path : string) (headers : list (string * string)) (mode : string)
    (days : Z) : M bool :=
  target ← request_url mode days;
  match target with
  | None => ret false
  | Some url =>
      (* Make the API request *)
      wait_if_needed;;
      print "Requesting advisories from: " [FStr url];;
      response ← requests_get url headers;
      increment;;
      handle_response response save_path
  end.

(** Lines 245-253 of [download_csaf]: the two [except] clauses. *)
Definition on_error (e : exn) : M bool :=
  if is_request_exception e then
    print "Error retrieving CSAF list: " [FExn e];;
    ret false
  else
    print "Unexpected error: " [FExn e];;
    (* Print more debug info *)
    traceback_print_exc e;;
    ret false.

Definition request_headers (auth_token : json) : list (string * string) :=
  [("Accept", "application/json"); ("Authorization", "Bearer " +:+ py_str auth_token)].

(** [download_csaf(save_path, auth_token, rate_limiter, mode, days)];
    [rate_limiter] is the limiter of the world. *)
Definition download_csaf (save_path : string) (auth_token : json) (mode : string) (days : Z)
    : M bool :=
  enter "download_csaf";;
  found ← os_path_exists save_path;
  when (negb found) (os_makedirs save_path);;
  let headers := request_headers auth_token in
  try_except (attempt save_path headers mode days) on_error.

(** The parsed command line. *)
Record Args : Type := mkArgs {
  path : string;
  token : option string;
  mode : string;
  days : Z
  }.

(** Lines 275-301 of [main]: what is done once there is a token. *)
Definition attempts (args : Args) (auth_token : json) : M unit :=
  (* Initialize rate limiter *)
  RateLimiter_init;;
  (* First attempt *)
  success ← download_csaf (path args) auth_token (mode args) (days args);
  (* If first attempt fails, try with a new token *)
  when (negb success)
    (print "Initial download attempt failed. Attempting to refresh token and retry..." [];;
     new_token ← get_new_token;
     if truthy new_token then
       print "Retrying download with new token..." [];;
       _ ← download_csaf (path args) new_token (mode args) (days args);
       ret tt
     else
       print "Failed to obtain new token. Cannot retry download." []).

(** The value of [args.token]: a string or [None]. *)
Definition cli_token (args : Args) : json :=
  match token args with Some s => JStr s | None => JNull end.

(** [main()], from the parsed arguments on. *)
Definition main (args : Args) : M unit :=
  enter "main";;
  (* Get token - either from command line or generate new one *)
  let auth_token := cli_token args in
  if negb (truthy auth_token) then
    print "No token provided, attempting to generate one from credentials.json" [];;
    auth_token ← get_new_token;
    if negb (truthy auth_token) then
      print "Failed to obtain token. Exiting." []
    else attempts args auth_token
  else attempts args auth_token.


End Script.

(** ** Observing a run *)

(** The events a computation added when it took [w] to [w']. *)
Definition new_events (w w' : World) : list event := drop (length (trace w)) (trace w').

(** The world with the events [evs] added to its trace. *)
Definition logged (evs : list event) (w : World) : World :=
  mkWorld (clock w) (fs w) (network w) (limiter w) (trace w ++ evs).

Definition set_network (net : list http_outcome) (w : World) : World :=
  mkWorld (clock w) (fs w) net (limiter w) (trace w).

(** How often function [fn] was entered. *)
Definition calls_of (fn : string) (evs : list event) : nat :=
  length (List.filter (fun e => match e with Enter f => String.eqb f fn | _ => false end) evs).

Definition printed (text : string) (evs : list event) : bool :=
  existsb (fun e => match e with Print t _ => String.eqb t text | _ => false end) evs.

Definition is_http_get (e : event) : bool :=
  match e with HttpGet _ _ => true | _ => false end.

Definition is_traceback (e : event) : bool :=
  match e with Traceback _ => true | _ => false end.

(** The files written, in order. *)
Fixpoint writes (evs : list event) : list (string * json) :=
  match evs with
  | [] => []
  | WriteFile p v :: rest => (p, v) :: writes rest
  | _ :: rest => writes rest
  end.

(** The wait that the message [msg] announces: how long the [time.sleep]
    that follows the message lasts and what the clock shows right after it,
    the clock showing [now] before the first event. *)
Fixpoint wait_of (msg : string) (now : Z) (evs : list event) : option (Z * Z) :=
  match evs with
  | [] => None
  | Print m _ :: Sleep us :: rest =>
      if String.eqb m msg then Some (us, now + us) else wait_of msg (now + us) rest
  | Sleep us :: rest => wait_of msg (now + us) rest
  | _ :: rest => wait_of msg now rest
  end.

Definition MSG_SECOND : string := "Rate limit approaching: Waiting ".
Definition MSG_MINUTE : string := "Minute rate limit reached: Waiting ".
Definition MSG_DAY : string := "Daily rate limit reached: Waiting ".

Definition MSG_FIRST_FAILED : string :=
  "Initial download attempt failed. Attempting to refresh token and retry...".
Definition MSG_403 : string := "Error 403 Forbidden: Token may be expired or invalid".


(** The requests and the increments among the events, in order. *)
Definition quota_view (evs : list event) : list event :=
  List.filter (fun e => match e with
                        | HttpGet _ _ => true
                        | Enter f => String.eqb f "increment"
                        | _ => false
                        end) evs.

(** The world in which the [try] block of [download_csaf] starts: the
    function is entered and the output directory made when the path did not
    exist. *)
Definition prepared (save_path : string) (w : World) : World :=
  match fs w !! save_path with
  | Some _ => logged [Enter "download_csaf"] w
  | None =>
      mkWorld (clock w) (<[save_path := Dir]> (fs w)) (network w) (limiter w)
              (trace w ++ [Enter "download_csaf"; Makedirs save_path])
  end.

(** The events of the [except] clause that handles [e]. *)
Definition error_events (e : exn) : list event :=
  if is_request_exception e then [Print "Error retrieving CSAF list: " [FExn e]]
  else [Print "Unexpected error: " [FExn e]; Traceback e].

(** The limiter after one [increment]. *)
Definition incremented (r : RateLimiter) : RateLimiter :=
  mkRateLimiter (second_timestamp r) (second_counter r + 1)
                (minute_timestamp r) (minute_counter r + 1)
                (day_timestamp r) (day_counter r + 1).

(** ** Schedules of calls on the rate limiter *)

(** Time passing outside the program, between two calls. *)
Definition advance (us : Z) : M unit :=
  fun w => (Ok tt, mkWorld (clock w + us) (fs w) (network w) (limiter w) (trace w)).

Inductive op : Type :=
  | Tick (us : Z)
  | WaitIfNeeded
  | Increment.

Definition step (o : op) : M unit :=
  match o with
  | Tick us => advance us
  | WaitIfNeeded => wait_if_needed
  | Increment => increment
  end.

Fixpoint run (ops : list op) (w : World) : World :=
  match ops with
  | [] => w
  | o :: rest => run rest (snd (step o w))
  end.




(** One API call the way [download_csaf] makes it. *)
Definition one_call : list op := [WaitIfNeeded; Increment].


(** The three windows of the rate limiter, for statements that hold of each. *)
Record window : Type := mkWindow {
  duration : Z;
  limit : Z;
  counter : RateLimiter -> Z;
  timestamp : RateLimiter -> Z;
  announce : string
}.

Definition second_window : window :=
  mkWindow SECOND SECOND_LIMIT second_counter second_timestamp MSG_SECOND.
Definition minute_window : window :=
  mkWindow MINUTE MINUTE_LIMIT minute_counter minute_timestamp MSG_MINUTE.
Definition day_window : window :=
  mkWindow DAY DAY_LIMIT day_counter day_timestamp MSG_DAY.

Definition windows : list window := [second_window; minute_window; day_window].

Definition counters_nonneg (w : World) : Prop :=
  Forall (fun win => 0 <= counter win (limiter w)) windows.

(** ** Relations between the world before and after a computation *)

(** [m] takes every world to one related to it by [R]. *)
Definition inv {A} (R : World -> World -> Prop) (m : M A) : Prop :=
  forall w, R w (snd (m w)).

(** The trace only grows, and by events that all satisfy [Q]. *)
Definition appends (Q : event -> bool) (w w' : World) : Prop :=
  exists evs, trace w' = trace w ++ evs /\ forallb Q evs = true.

(** The component [f] of the world is left as it was. *)
Definition keeps {X} (f : World -> X) (w w' : World) : Prop := f w' = f w.

Definition any_event (e : event) : bool := true.

Definition not_enter (fn : string) (e : event) : bool :=
  match e with Enter f => negb (String.eqb f fn) | _ => true end.

Definition not_http_get (e : event) : bool := negb (is_http_get e).


(** The events a function can add: entries into the functions [fns] and the
    other events that [others] accepts. *)
Definition vocab (fns : list string) (others : event -> bool) (e : event) : bool :=
  match e with
  | Enter f => existsb (String.eqb f) fns
  | _ => others e
  end.

Definition vocab_init : event -> bool := vocab ["RateLimiter.__init__"] (fun _ => false).

Definition vocab_wait : event -> bool :=
  vocab ["wait_if_needed"]
        (fun e => match e with Print _ _ | Sleep _ => true | _ => false end).

Definition vocab_increment : event -> bool := vocab ["increment"] (fun _ => false).

(** Prints, file reads and token requests: what [get_new_token] does after
    it is entered. *)
Definition vocab_io : event -> bool :=
  vocab [] (fun e => match e with Print _ _ | ReadFile _ | HttpPost _ _ _ => true | _ => false end).

Definition vocab_token : event -> bool :=
  vocab ["get_new_token"]
        (fun e => match e with Print _ _ | ReadFile _ | HttpPost _ _ _ => true | _ => false end).

Definition vocab_process : event -> bool :=
  vocab ["process_advisories"]
        (fun e => match e with Print _ _ | WriteFile _ _ => true | _ => false end).

Definition vocab_print : event -> bool :=
  vocab [] (fun e => match e with Print _ _ => true | _ => false end).

Definition vocab_attempt : event -> bool :=
  vocab ["wait_if_needed"; "increment"; "process_advisories"]
        (fun e => match e with
                  | Print _ _ | Sleep _ | WriteFile _ _ | HttpGet _ _ => true
                  | _ => false
                  end).

Definition vocab_error : event -> bool :=
  vocab [] (fun e => match e with Print _ _ | Traceback _ => true | _ => false end).

Definition vocab_download : event -> bool :=
  vocab ["download_csaf"; "wait_if_needed"; "increment"; "process_advisories"]
        (fun e => match e with
                  | Print _ _ | Sleep _ | Makedirs _ | WriteFile _ _ | HttpGet _ _
                  | Traceback _ => true
                  | _ => false
                  end).

(** ** Persisting a batch of records *)

(** The identifier of a record: the value of its field [advisoryId], when the
    record is a dict that has the field. *)
Definition identifier (advisory : json) : option json :=
  match advisory with
  | JDict kvs => dict_get "advisoryId" kvs
  | _ => None
  end.

Section Persist.
Variable py_repr : json -> string.

(** [{save_path}/{identifier}.json] *)
Definition file_of (save_path : string) (advisory_id : json) : string :=
  os_path_join save_path (py_str py_repr advisory_id +:+ ".json").

(** The files a batch is to leave, in order: one per record that has an
    identifier. *)
Definition persisted (save_path : string) (batch : list json) : list (string * json) :=
  flat_map (fun advisory =>
              match identifier advisory with
              | Some advisory_id => [(file_of save_path advisory_id, advisory)]
              | None => []
              end) batch.

(** What the loop of [process_advisories] does for one record. *)
Definition record_events (save_path : string) (advisory : json) : list event :=
  match identifier advisory with
  | Some advisory_id =>
      [WriteFile (file_of save_path advisory_id) advisory;
       Print "Saved advisory: " [FStr (file_of save_path advisory_id)]]
  | None => [Print "Skipping advisory with missing ID: " [FVal advisory]]
  end.
End Persist.

(** The file system after the writes [ws]. *)
Definition write_all (ws : list (string * json)) (files : gmap string fnode)
    : gmap string fnode :=
  fold_left (fun m pv => <[fst pv := File (Some (snd pv))]> m) ws files.

(** ** Checking the calendar *)

(** [date.toordinal()] *)
Definition toordinal (ymd : Z * Z * Z) : Z :=
  let '(y, m, d) := ymd in ymd2ord y m d.

(** A date of the calendar: a month of the year and a day of that month. *)
Definition calendar_date (ymd : Z * Z * Z) : Prop :=
  let '(y, m, d) := ymd in
  1 <= m <= 12 /\ 1 <= d <= DAYS_IN_MONTH m + (if (m =? 2) && is_leap y then 1 else 0).

(** [ord2ymd] answers day [n] with a date of the calendar whose ordinal,
    by [ymd2ord], is [n]. *)
Definition date_ok (n : Z) : bool :=
  let '(y, m, d) := ord2ymd n in
  (ymd2ord y m d =? n) && (1 <=? m) && (m <=? 12) && (1 <=? d) &&
  (d <=? DAYS_IN_MONTH m + (if (m =? 2) && is_leap y then 1 else 0)).

(** [date_ok] on the days [1 .. p], with the next day to check. *)
Definition scan (p : positive) : Z * bool :=
  Pos.iter (fun nb => (fst nb + 1, snd nb && date_ok (fst nb))) (1, true) p.

Definition add_years (k : Z) (ymd : Z * Z * Z) : Z * Z * Z :=
  let '(y, m, d) := ymd in (y + k, m, d).

(** ** Scenarios *)

(** A world in which nothing has happened yet, at time [t]. *)
Definition blank (t : Z) : World := mkWorld t ∅ [] (mkRateLimiter 0 0 0 0 0 0) [].

(** The process right after [RateLimiter()] at time [t]. *)
Definition booted (t : Z) : World := snd (RateLimiter_init (blank t)).

(** A limiter whose minute window is full, 20 seconds after it opened. *)
Definition minute_full : World :=
  mkWorld (datetime 2025 1 1 12 0 20) ∅ []
          (mkRateLimiter (datetime 2025 1 1 12 0 20) 0 (datetime 2025 1 1 12 0 0) 30
                         (datetime 2025 1 1 12 0 0) 30) [].

(** The morning of 2024-03-10, nothing on disk, no network. *)
Definition march_10 : World := blank (datetime 2024 3 10 9 30 0).

(** A [repr] to run examples with. *)
Definition sample_repr (v : json) : string := "<repr>".

(** The batch of the specification's example, with the field the script
    reads, and the same batch with the field named [id]. *)
Definition batch_advisoryId : list json :=
  [JDict [("advisoryId", JStr "A1")]; JDict [("foo", JStr "bar")];
   JDict [("advisoryId", JStr "A2")]].


(** A world whose next HTTP exchange fails in transport. *)
Definition unreachable : World :=
  mkWorld (datetime 2025 1 1 12 0 0) ∅ [Fails ConnectionError] (mkRateLimiter 0 0 0 0 0 0) [].

(** A world whose next HTTP exchange is answered with an empty list. *)
Definition served : World :=
  mkWorld (datetime 2025 1 1 12 0 0) ∅ [Responds (mkResponse 200 (Ok (JList [])))]
          (mkRateLimiter 0 0 0 0 0 0) [].


(** A world in which nothing is on disk and the next request is refused
    with 403. *)
Definition refused : World :=
  mkWorld (datetime 2025 1 1 12 0 0) ∅
          [Responds (mkResponse 403 (Raise JSONDecodeError))] (mkRateLimiter 0 0 0 0 0 0) [].

(** Credentials on disk; the first request fails in transport, the token
    request is answered with a fresh token, the second request with an empty
    list. *)
Definition flaky : World :=
  mkWorld (datetime 2025 1 1 12 0 0)
          {["credentials.json" :=
              File (Some (JDict [("CLIENT_ID", JStr "id"); ("CLIENT_SECRET", JStr "secret")]))]}
          [Fails ConnectionError;
           Responds (mkResponse 200 (Ok (JDict [("access_token", JStr "fresh")])));
           Responds (mkResponse 200 (Ok (JList [])))]
          (mkRateLimiter 0 0 0 0 0 0) [].


(** ** Waiting times *)

(** The [time.sleep] calls among the events, in order. *)
Fixpoint sleeps (evs : list event) : list Z :=
  match evs with
  | [] => []
  | Sleep us :: rest => us :: sleeps rest
  | _ :: rest => sleeps rest
  end.

Definition sum_of (xs : list Z) : Z := fold_right Z.add 0 xs.

(** What [wait_if_needed], entered in [w], sleeps for the window [win]: the
    rest of the window when its counter has reached the limit and its
    duration has not elapsed at the time of entry, and nothing otherwise. *)
Definition due (win : window) (w : World) : list Z :=
  let elapsed := clock w - timestamp win (limiter w) in
  if (limit win <=? counter win (limiter w)) && (elapsed <? duration win)
  then [duration win - elapsed] else [].

(** How many [increment] calls a schedule holds. *)
Definition increments (ops : list op) : nat :=
  length (List.filter (fun o => match o with Increment => true | _ => false end) ops).

(** Time does not run backwards between two calls. *)
Definition forward (o : op) : Prop :=
  match o with Tick us => 0 <= us | _ => True end.

(** No timestamp of the limiter lies in the future. *)
Definition timestamps_past (w : World) : Prop :=
  Forall (fun win => timestamp win (limiter w) <= clock w) windows.

Definition counters_at_most (k : Z) (w : World) : Prop :=
  Forall (fun win => counter win (limiter w) <= k) windows.

(** ** Sequences of API calls *)







(** ** Token requests *)

Definition is_http_post (e : event) : bool :=
  match e with HttpPost _ _ _ => true | _ => false end.

Definition is_read (e : event) : bool :=
  match e with ReadFile _ => true | _ => false end.

(** The request [get_new_token] sends for the credentials it read (lines
    126-137). *)
Definition token_post (client_id client_secret : json) : event :=
  HttpPost token_url
           [("client_id", client_id); ("client_secret", client_secret);
            ("grant_type", JStr "client_credentials")]
           [("Content-Type", "application/x-www-form-urlencoded")].

(** ** Responses *)

(** The values [len] and [for] accept. *)
Definition sized (v : json) : bool :=
  match v with
  | JList _ | JDict _ | JStr _ => true
  | _ => false
  end.

(** What [download_csaf] hands to [process_advisories] (lines 231-237): the
    value of the key [advisories] of a dict, or a list itself. *)
Definition advisories_of (response_data : json) : option json :=
  match response_data with
  | JDict kvs => dict_get "advisories" kvs
  | JList _ => Some response_data
  | _ => None
  end.

(** The statuses for which [raise_for_status] raises. *)
Definition error_status (status : Z) : bool := (400 <=? status) && (status <? 600).

(** The world in which [download_csaf] looks at the response to its request
    for [url]: the directory is there, [wait_if_needed] has returned, the
    request is sent and counted, and [rest] is what the network still
    holds. *)
Definition requested (save_path url : string) (headers : list (string * string))
    (rest : list http_outcome) (w : World) : World :=
  snd (increment
         (set_network rest
            (logged [Print "Requesting advisories from: " [FStr url]; HttpGet url headers]
                    (snd (wait_if_needed (prepared save_path w)))))).


(** What [main] can do after it has created the rate limiter. *)
Definition vocab_retry : event -> bool :=
  vocab ["download_csaf"; "wait_if_needed"; "increment"; "process_advisories"; "get_new_token"]
        (fun _ => true).

(** ** More scenarios *)

(** Credentials on disk and a token server that answers with a token. *)
Definition authorised : World :=
  mkWorld (datetime 2025 1 1 12 0 0)
          {["credentials.json" :=
              File (Some (JDict [("CLIENT_ID", JStr "id"); ("CLIENT_SECRET", JStr "secret")]))]}
          [Responds (mkResponse 200 (Ok (JDict [("access_token", JStr "fresh")])))]
          (mkRateLimiter 0 0 0 0 0 0) [].

(** The request is answered with an object that has no [advisories]. *)
Definition surprising : World :=
  mkWorld (datetime 2025 1 1 12 0 0) ∅
          [Responds (mkResponse 200 (Ok (JDict [("message", JStr "ok")])))]
          (mkRateLimiter 0 0 0 0 0 0) [].





(** Credentials on disk; the first request is refused with 403, the token
    request is answered with a fresh token, the second request with an empty
    list. *)
Definition expired : World :=
  mkWorld (datetime 2025 1 1 12 0 0)
          {["credentials.json" :=
              File (Some (JDict [("CLIENT_ID", JStr "id"); ("CLIENT_SECRET", JStr "secret")]))]}
          [Responds (mkResponse 403 (Raise JSONDecodeError));
           Responds (mkResponse 200 (Ok (JDict [("access_token", JStr "fresh")])));
           Responds (mkResponse 200 (Ok (JList [])))]
          (mkRateLimiter 0 0 0 0 0 0) [].

(** * Properties *)

(** ** Symbolic execution *)

Ltac py_unfold :=
  cbv beta iota zeta delta
    [bind ret raise lift try_except when emit print enter datetime_now time_sleep attr assign
     advance
     set_second_timestamp set_second_counter set_minute_timestamp set_minute_counter
     set_day_timestamp set_day_counter
     clock fs network limiter trace fst snd
     second_timestamp second_counter minute_timestamp minute_counter day_timestamp day_counter].

Ltac run_cases :=
  repeat (py_unfold;
          match goal with
          | |- context [if ?a <=? ?b then _ else _] =>
              destruct (Z.leb_spec a b); try (exfalso; lia)
          | |- context [if ?a <? ?b then _ else _] =>
              destruct (Z.ltb_spec a b); try (exfalso; lia)
          end);
  py_unfold.

Ltac unfold_limits :=
  unfold SECOND_LIMIT, MINUTE_LIMIT, DAY_LIMIT, MINUTE, DAY, SECOND in *.

(** ** The rate limiter *)

Lemma wait_if_needed_returns w : fst (wait_if_needed w) = Ok tt.
Proof.
  destruct w as [clk f net [t1 c1 t2 c2 t3 c3] tr].
  unfold wait_if_needed; unfold_limits.
  run_cases; try reflexivity; lia.
Qed.

(** After [wait_if_needed] every counter is below its limit. *)
Lemma wait_if_needed_below w :
  let r := limiter (snd (wait_if_needed w)) in
  second_counter r < SECOND_LIMIT /\ minute_counter r < MINUTE_LIMIT /\ day_counter r < DAY_LIMIT.
Proof.
  destruct w as [clk f net [t1 c1 t2 c2 t3 c3] tr].
  unfold wait_if_needed; unfold_limits.
  run_cases; lia.
Qed.

(** [wait_if_needed] leaves a counter as it is or sets it to 0. *)
Lemma wait_if_needed_counters w :
  let r := limiter w in
  let r' := limiter (snd (wait_if_needed w)) in
  (second_counter r' = second_counter r \/ second_counter r' = 0) /\
  (minute_counter r' = minute_counter r \/ minute_counter r' = 0) /\
  (day_counter r' = day_counter r \/ day_counter r' = 0).
Proof.
  destruct w as [clk f net [t1 c1 t2 c2 t3 c3] tr].
  unfold wait_if_needed; unfold_limits.
  run_cases; lia.
Qed.

Lemma increment_counters w :
  let r := limiter w in
  let r' := limiter (snd (increment w)) in
  second_counter r' = second_counter r + 1 /\
  minute_counter r' = minute_counter r + 1 /\
  day_counter r' = day_counter r + 1.
Proof. cbn. auto. Qed.

Lemma step_nonneg o w : counters_nonneg w -> counters_nonneg (snd (step o w)).
Proof.
  unfold counters_nonneg, windows. rewrite !Forall_cons, !Forall_nil. cbn [counter second_window
    minute_window day_window].
  destruct o as [us| |]; cbn [step].
  - cbn. auto.
  - pose proof (wait_if_needed_counters w) as H. cbv zeta in H. lia.
  - pose proof (increment_counters w) as H. cbv zeta in H. lia.
Qed.

Lemma run_nonneg ops : forall w, counters_nonneg w -> counters_nonneg (run ops w).
Proof.
  induction ops as [|o ops IH]; intros w Hw; cbn [run]; [exact Hw|].
  apply IH, step_nonneg, Hw.
Qed.


Lemma booted_nonneg t : counters_nonneg (booted t).
Proof. unfold counters_nonneg, windows. repeat constructor; cbn; lia. Qed.

(** C9.  [wait_if_needed] never increases a counter: after it each of the
    three counters has its prior value or is 0.  [increment] adds exactly 1
    to each.  Hence, from a fresh [RateLimiter] on, the counters are never
    negative, whatever sequence of calls and pauses follows. *)
Theorem counters_change_only_by_reset_and_increment :
  (forall w,
     let r := limiter w in
     let r' := limiter (snd (wait_if_needed w)) in
     (second_counter r' = second_counter r \/ second_counter r' = 0) /\
     (minute_counter r' = minute_counter r \/ minute_counter r' = 0) /\
     (day_counter r' = day_counter r \/ day_counter r' = 0)) /\
  (forall w,
     let r := limiter w in
     let r' := limiter (snd (increment w)) in
     second_counter r' = second_counter r + 1 /\
     minute_counter r' = minute_counter r + 1 /\
     day_counter r' = day_counter r + 1) /\
  (forall t ops, counters_nonneg (run ops (booted t))).
Proof.
  split; [exact wait_if_needed_counters|].
  split; [exact increment_counters|].
  intros t ops. apply run_nonneg, booted_nonneg.
Qed.



Ltac new_events_norm :=
  unfold new_events; cbn [trace];
  rewrite <- ?app_assoc; cbn [app];
  rewrite ?drop_app_length.

Ltac window_cases :=
  run_cases;
  (split; intros Hs; try (exfalso; lia); new_events_norm; cbn;
   repeat split; try reflexivity; try (f_equal; f_equal; lia)).

(** C4.  For each window whose counter has reached its limit when
    [wait_if_needed] is entered, with [sleep_time] the window's duration less
    the time elapsed since its timestamp: if [sleep_time] is positive the
    program announces the wait, sleeps exactly [sleep_time], and the counter is
    0 and the timestamp is the clock right after that sleep; otherwise there
    is no wait for this window, the counter is 0 and the timestamp is the
    time of the call. *)
Theorem full_window_waits_then_resets win w :
  In win windows ->
  limit win <= counter win (limiter w) ->
  let w' := snd (wait_if_needed w) in
  let sleep_time := duration win - (clock w - timestamp win (limiter w)) in
  (0 < sleep_time ->
     wait_of (announce win) (clock w) (new_events w w') =
       Some (sleep_time, timestamp win (limiter w')) /\
     counter win (limiter w') = 0) /\
  (sleep_time <= 0 ->
     wait_of (announce win) (clock w) (new_events w w') = None /\
     counter win (limiter w') = 0 /\
     timestamp win (limiter w') = clock w).
Proof.
  intros Hin Hfull.
  destruct w as [clk f net [t1 c1 t2 c2 t3 c3] tr].
  cbn [In windows] in Hin.
  destruct Hin as [<-|[<-|[<-|[]]]];
    cbn [limit counter timestamp duration announce second_window minute_window day_window
         limiter clock second_counter second_timestamp minute_counter minute_timestamp
         day_counter day_timestamp] in *;
    unfold wait_if_needed; unfold_limits; cbv zeta; window_cases.
Qed.

Lemma full_window_waits_then_resets_witness :
  wait_of MSG_MINUTE (clock minute_full)
          (new_events minute_full (snd (wait_if_needed minute_full))) =
    Some (40 * SECOND, minute_timestamp (limiter (snd (wait_if_needed minute_full)))) /\
  minute_counter (limiter (snd (wait_if_needed minute_full))) = 0.
Proof.
  apply (full_window_waits_then_resets minute_window minute_full).
  - cbn. auto.
  - vm_compute. discriminate.
  - vm_compute. reflexivity.
Defined.

(** ** Reasoning about computations *)

Section Inv.
Context (R : World -> World -> Prop) `{!PreOrder R}.

Lemma inv_ret A (a : A) : inv R (ret a).
Proof. intros w. cbn. reflexivity. Qed.

Lemma inv_raise A e : inv R (@raise A e).
Proof. intros w. cbn. reflexivity. Qed.

Lemma inv_lift A (r : result A) : inv R (lift r).
Proof. intros w. cbn. reflexivity. Qed.

Lemma inv_bind A B (m : M A) (k : A -> M B) :
  inv R m -> (forall a, inv R (k a)) -> inv R (bind m k).
Proof.
  intros Hm Hk w. unfold bind. specialize (Hm w).
  destruct (m w) as [[a|e] w1]; cbn in *; [|exact Hm].
  etransitivity; [exact Hm|apply Hk].
Qed.

Lemma inv_try_except A (body : M A) handler :
  inv R body -> (forall e, inv R (handler e)) -> inv R (try_except body handler).
Proof.
  intros Hm Hk w. unfold try_except. specialize (Hm w).
  destruct (body w) as [[a|e] w1]; cbn in *; [exact Hm|].
  etransitivity; [exact Hm|apply Hk].
Qed.

Lemma inv_when b m : inv R m -> inv R (when b m).
Proof. destruct b; cbn [when]; [auto|intros _; apply inv_ret]. Qed.

Lemma inv_for_each A (xs : list A) body :
  (forall x, inv R (body x)) -> inv R (for_each xs body).
Proof.
  intros Hb. induction xs as [|x xs IH]; cbn [for_each].
  - apply inv_ret.
  - apply inv_bind; [apply Hb|intros _; exact IH].
Qed.
End Inv.

#[local] Instance appends_preorder Q : PreOrder (appends Q).
Proof.
  split.
  - intros w. exists []. rewrite app_nil_r. auto.
  - intros w1 w2 w3 [a [Ha Qa]] [b [Hb Qb]]. exists (a ++ b).
    rewrite Hb, Ha, <- app_assoc, forallb_app, Qa, Qb. auto.
Qed.

#[local] Instance keeps_preorder X (f : World -> X) : PreOrder (keeps f).
Proof.
  split.
  - intros w. reflexivity.
  - intros w1 w2 w3 H12 H23. unfold keeps in *. congruence.
Qed.

Lemma appends_same_trace Q w w' : trace w' = trace w -> appends Q w w'.
Proof. intros H. exists []. rewrite app_nil_r. auto. Qed.

Lemma appends_one Q e w w' : trace w' = trace w ++ [e] -> Q e = true -> appends Q w w'.
Proof. intros H HQ. exists [e]. cbn. rewrite HQ. auto. Qed.

Lemma appends_new_events Q w w' :
  appends Q w w' -> trace w' = trace w ++ new_events w w' /\ forallb Q (new_events w w') = true.
Proof.
  intros [evs [H HQ]]. unfold new_events. rewrite H, drop_app_length. auto.
Qed.

Lemma appends_weaken (Q Q' : event -> bool) w w' :
  (forall e, Q e = true -> Q' e = true) -> appends Q w w' -> appends Q' w w'.
Proof.
  intros HQ [evs [H Hall]]. exists evs. split; [exact H|].
  rewrite forallb_forall in *. auto.
Qed.

(** The primitives. *)
Lemma inv_emit Q e : Q e = true -> inv (appends Q) (emit e).
Proof. intros HQ w. eapply appends_one; [reflexivity|exact HQ]. Qed.

Lemma inv_datetime_now Q : inv (appends Q) datetime_now.
Proof. intros w. apply appends_same_trace. reflexivity. Qed.

Lemma inv_attr Q f : inv (appends Q) (attr f).
Proof. intros w. apply appends_same_trace. reflexivity. Qed.

Lemma inv_assign Q f : inv (appends Q) (assign f).
Proof. intros w. apply appends_same_trace. reflexivity. Qed.

Lemma inv_os_path_exists Q p : inv (appends Q) (os_path_exists p).
Proof. intros w. apply appends_same_trace. reflexivity. Qed.

Lemma inv_exchange Q : inv (appends Q) exchange.
Proof.
  intros w. apply appends_same_trace. unfold exchange.
  destruct (network w) as [|[r|e] rest]; reflexivity.
Qed.

Lemma inv_time_sleep Q us : Q (Sleep us) = true -> inv (appends Q) (time_sleep us).
Proof.
  intros HQ w. unfold time_sleep. destruct (us <? 0).
  - apply appends_same_trace. reflexivity.
  - eapply appends_one; [reflexivity|exact HQ].
Qed.

Lemma inv_os_makedirs Q p : Q (Makedirs p) = true -> inv (appends Q) (os_makedirs p).
Proof.
  intros HQ w. unfold os_makedirs. destruct (fs w !! p).
  - apply appends_same_trace. reflexivity.
  - eapply appends_one; [reflexivity|exact HQ].
Qed.

Lemma inv_write_json Q p v : Q (WriteFile p v) = true -> inv (appends Q) (write_json p v).
Proof. intros HQ w. eapply appends_one; [reflexivity|exact HQ]. Qed.

Lemma inv_read_tail Q p :
  inv (appends Q)
      (fun w => match fs w !! p with
                | Some (File (Some v)) => (Ok v, w)
                | Some (File None) => (Raise JSONDecodeError, w)
                | Some Dir => (Raise IsADirectoryError, w)
                | None => (Raise (Exn false "FileNotFoundError"), w)
                end).
Proof.
  intros w. apply appends_same_trace. destruct (fs w !! p) as [[|[v|]]|]; reflexivity.
Qed.

Lemma inv_weaken A (Q Q' : event -> bool) (m : M A) :
  (forall e, Q e = true -> Q' e = true) -> inv (appends Q) m -> inv (appends Q') m.
Proof. intros HQ Hm w. eapply appends_weaken; [exact HQ|apply Hm]. Qed.

(** Solves [forall e, V e = true -> Q e = true] for two concrete event
    predicates. *)
Ltac vocab_solve :=
  let e := fresh "e" in
  let H := fresh "H" in
  intros e H; destruct e as [f| | | | | | | | ]; cbn in H |- *;
  try discriminate H; try reflexivity;
  repeat match type of H with
         | context [String.eqb f ?s] =>
             revert H; destruct (String.eqb_spec f s) as [->|?]; intros H;
             [vm_compute; reflexivity|]; cbn in H
         end;
  discriminate H.

(** Decomposes a goal [inv (appends Q) m] along the text of [m]. *)
Ltac inv_appends_step known :=
  lazymatch goal with
  | |- inv _ (ret _) => apply inv_ret; typeclasses eauto
  | |- inv _ (raise _) => apply inv_raise; typeclasses eauto
  | |- inv _ (lift _) => apply inv_lift; typeclasses eauto
  | |- inv _ datetime_now => apply inv_datetime_now
  | |- inv _ (attr _) => apply inv_attr
  | |- inv _ (assign _) => apply inv_assign
  | |- inv _ (os_path_exists _) => apply inv_os_path_exists
  | |- inv _ exchange => apply inv_exchange
  | |- inv _ (emit _) => apply inv_emit; reflexivity
  | |- inv _ (time_sleep _) => apply inv_time_sleep; reflexivity
  | |- inv _ (os_makedirs _) => apply inv_os_makedirs; reflexivity
  | |- inv _ (write_json _ _) => apply inv_write_json; reflexivity
  | |- inv _ (bind _ _) => apply inv_bind; [typeclasses eauto| |intros ?]
  | |- inv _ (try_except _ _) => apply inv_try_except; [typeclasses eauto| |intros ?]
  | |- inv _ (when _ _) => apply inv_when; [typeclasses eauto|]
  | |- inv _ (for_each _ _) => apply inv_for_each; [typeclasses eauto|intros ?]
  | |- inv _ (let _ := _ in _) => cbv zeta
  | |- inv _ (if ?b then _ else _) => destruct b
  | |- inv _ (match ?x with _ => _ end) => destruct x
  | |- inv _ (fun w => match fs w !! _ with _ => _ end) => apply inv_read_tail
  | |- _ => known
  end.

Ltac inv_appends_with known := repeat (inv_appends_step known).

Ltac unfold_prims :=
  unfold requests_get, requests_post, read_json, raise_for_status, response_json,
         traceback_print_exc, print, enter,
         set_second_timestamp, set_second_counter, set_minute_timestamp, set_minute_counter,
         set_day_timestamp, set_day_counter.

Lemma RateLimiter_init_vocab : inv (appends vocab_init) RateLimiter_init.
Proof. unfold RateLimiter_init; unfold_prims. inv_appends_with fail. Qed.

Lemma wait_if_needed_vocab : inv (appends vocab_wait) wait_if_needed.
Proof. unfold wait_if_needed; unfold_prims. inv_appends_with fail. Qed.

Lemma increment_vocab : inv (appends vocab_increment) increment.
Proof. unfold increment; unfold_prims. inv_appends_with fail. Qed.

Lemma request_url_vocab mode days : inv (appends vocab_print) (request_url mode days).
Proof. unfold request_url; unfold_prims. inv_appends_with fail. Qed.

Ltac known_limiter :=
  idtac; match goal with
  | |- inv (appends _) RateLimiter_init =>
      apply (inv_weaken _ vocab_init); [vocab_solve|apply RateLimiter_init_vocab]
  | |- inv (appends _) wait_if_needed =>
      apply (inv_weaken _ vocab_wait); [vocab_solve|apply wait_if_needed_vocab]
  | |- inv (appends _) increment =>
      apply (inv_weaken _ vocab_increment); [vocab_solve|apply increment_vocab]
  | |- inv (appends _) (request_url _ _) =>
      apply (inv_weaken _ vocab_print); [vocab_solve|apply request_url_vocab]
  end.

Section ScriptTraces.
Variable py_repr : json -> string.

Lemma get_new_token_vocab : inv (appends vocab_token) (get_new_token).
Proof. unfold get_new_token, token_request, token_error; unfold_prims. inv_appends_with fail. Qed.

Lemma process_advisories_vocab advisories save_path :
  inv (appends vocab_process) (process_advisories py_repr advisories save_path).
Proof. unfold process_advisories, loop_body; unfold_prims. inv_appends_with fail. Qed.

Ltac known_process :=
  idtac; match goal with
  | |- inv (appends _) (process_advisories _ _ _) =>
      apply (inv_weaken _ vocab_process); [vocab_solve|apply process_advisories_vocab]
  end.

Lemma handle_response_vocab response save_path :
  inv (appends vocab_process) (handle_response py_repr response save_path).
Proof. unfold handle_response; unfold_prims. inv_appends_with known_process. Qed.

Ltac known_parts :=
  idtac; first
    [ known_limiter
    | match goal with
      | |- inv (appends _) (handle_response _ _ _) =>
          apply (inv_weaken _ vocab_process); [vocab_solve|apply handle_response_vocab]
      | |- inv (appends _) get_new_token =>
          apply (inv_weaken _ vocab_token); [vocab_solve|apply get_new_token_vocab]
      end ].

Lemma attempt_vocab save_path headers mode days :
  inv (appends vocab_attempt) (attempt py_repr save_path headers mode days).
Proof. unfold attempt; unfold_prims. inv_appends_with known_parts. Qed.

Lemma on_error_vocab e : inv (appends vocab_error) (on_error e).
Proof. unfold on_error; unfold_prims. inv_appends_with fail. Qed.

Ltac known_tried :=
  idtac; match goal with
  | |- inv (appends _) (attempt _ _ _ _ _) =>
      apply (inv_weaken _ vocab_attempt); [vocab_solve|apply attempt_vocab]
  | |- inv (appends _) (on_error _) =>
      apply (inv_weaken _ vocab_error); [vocab_solve|apply on_error_vocab]
  end.

Lemma download_csaf_vocab save_path auth_token mode days :
  inv (appends vocab_download) (download_csaf py_repr save_path auth_token mode days).
Proof. unfold download_csaf; unfold_prims. inv_appends_with known_tried. Qed.

Ltac known_all :=
  idtac; first
    [ known_parts
    | match goal with
      | |- inv (appends _) (download_csaf _ _ _ _ _) =>
          apply (inv_weaken _ vocab_download); [vocab_solve|apply download_csaf_vocab]
      end ].

Lemma attempts_appends args auth_token :
  inv (appends any_event) (attempts py_repr args auth_token).
Proof. unfold attempts; unfold_prims. inv_appends_with known_all. Qed.

Lemma main_appends args : inv (appends any_event) (main py_repr args).
Proof.
  unfold main; unfold_prims.
  inv_appends_with ltac:(idtac; first [known_all | apply attempts_appends]).
Qed.
End ScriptTraces.

(** ** Persisting records *)

Section Persisting.
Variable py_repr : json -> string.

Lemma writes_app a b : writes (a ++ b) = writes a ++ writes b.
Proof.
  induction a as [|e a IH]; [reflexivity|].
  destruct e; cbn; rewrite ?IH; reflexivity.
Qed.

Lemma writes_record_events save_path advisory :
  writes (record_events py_repr save_path advisory) = persisted py_repr save_path [advisory].
Proof.
  unfold record_events, persisted. cbn. destruct (identifier advisory); reflexivity.
Qed.

Lemma persisted_cons save_path advisory batch :
  persisted py_repr save_path (advisory :: batch) =
  persisted py_repr save_path [advisory] ++ persisted py_repr save_path batch.
Proof. unfold persisted. cbn. rewrite app_nil_r. reflexivity. Qed.

Lemma write_all_app ws1 ws2 files :
  write_all (ws1 ++ ws2) files = write_all ws2 (write_all ws1 files).
Proof. unfold write_all. apply fold_left_app. Qed.

Lemma loop_body_run save_path advisory w :
  loop_body py_repr save_path advisory w =
  (Ok tt,
   mkWorld (clock w) (write_all (persisted py_repr save_path [advisory]) (fs w)) (network w)
           (limiter w) (trace w ++ record_events py_repr save_path advisory)).
Proof.
  unfold loop_body, persisted, record_events, identifier, write_all, file_of,
    bind, print, emit, write_json.
  destruct w as [clk files net r tr].
  destruct advisory as [| | | | |xs|kvs]; cbn; try reflexivity.
  destruct (dict_get "advisoryId" kvs) as [advisory_id|];
    cbn; rewrite <- ?app_assoc; reflexivity.
Qed.

(** The loop of [process_advisories] over a batch. *)
Lemma for_each_advisory save_path batch : forall w,
  for_each batch (loop_body py_repr save_path) w =
  (Ok tt,
   mkWorld (clock w) (write_all (persisted py_repr save_path batch) (fs w)) (network w)
           (limiter w)
           (trace w ++ flat_map (record_events py_repr save_path) batch)).
Proof.
  induction batch as [|advisory batch IH]; intros w.
  - destruct w. cbn. rewrite app_nil_r. reflexivity.
  - cbn [for_each flat_map]. unfold bind. rewrite loop_body_run, IH.
    cbn [clock fs network limiter trace].
    rewrite (persisted_cons save_path advisory batch), write_all_app, <- ?app_assoc.
    reflexivity.
Qed.

Lemma process_advisories_batch save_path batch w :
  process_advisories py_repr (JList batch) save_path w =
  (Ok tt,
   mkWorld (clock w) (write_all (persisted py_repr save_path batch) (fs w)) (network w)
           (limiter w)
           (trace w ++ Enter "process_advisories" ::
              match batch with
              | [] => [Print "No advisories found in the response" []]
              | _ => Print "Processing " [FLen (length batch); FStr " advisories"] ::
                     flat_map (record_events py_repr save_path) batch
              end)).
Proof.
  unfold process_advisories.
  destruct batch as [|advisory batch].
  - destruct w. unfold bind, enter, print, emit. cbn. rewrite <- ?app_assoc. reflexivity.
  - unfold bind, enter, print, emit, lift. cbn [truthy negb py_len py_iter].
    rewrite for_each_advisory. cbn [clock fs network limiter trace].
    rewrite <- !app_assoc. reflexivity.
Qed.




Lemma new_events_of w w' evs : trace w' = trace w ++ evs -> new_events w w' = evs.
Proof. intros H. unfold new_events. rewrite H. apply drop_app_length. Qed.


(** C6.  Whatever the status, a response whose body is an object with the
    field [advisories] holding the list [batch] and a response whose body is
    the bare list [batch] are handled alike: same return value, same files
    written in the same order, same file system afterwards; and when the
    status is no error status, both return [True] after handing exactly
    [batch] to the persistence step. *)
Theorem wrapped_and_bare_lists_are_handled_alike save_path status kvs batch w :
  dict_get "advisories" kvs = Some (JList batch) ->
  let wrapped := handle_response py_repr (mkResponse status (Ok (JDict kvs))) save_path w in
  let bare := handle_response py_repr (mkResponse status (Ok (JList batch))) save_path w in
  fst wrapped = fst bare /\
  writes (new_events w (snd wrapped)) = writes (new_events w (snd bare)) /\
  fs (snd wrapped) = fs (snd bare) /\
  (~ 400 <= status < 600 ->
   fst bare = Ok true /\
   writes (new_events w (snd bare)) = persisted py_repr save_path batch /\
   fs (snd bare) = write_all (persisted py_repr save_path batch) (fs w)).
Proof.
  intros Hkvs. cbv zeta. unfold handle_response. cbn [status_code body].
  destruct (Z.eqb_spec status 403) as [->|Hne].
  { repeat split; try reflexivity; exfalso; lia. }
  unfold raise_for_status. cbn [status_code].
  destruct ((400 <=? status) && (status <? 600)) eqn:Herr.
  { apply andb_true_iff in Herr as [H1 H2]. apply Z.leb_le in H1. apply Z.ltb_lt in H2.
    repeat split; try reflexivity; exfalso; lia. }
  unfold response_json, bind, ret, lift, print, emit. cbn [body]. cbv beta iota.
  rewrite Hkvs.
  rewrite !process_advisories_batch. cbn [fst snd clock fs network limiter trace].
  assert (Hw : forall ty,
    writes (new_events w
      (mkWorld (clock w) (write_all (persisted py_repr save_path batch) (fs w)) (network w)
         (limiter w)
         ((trace w ++ [Print "Response type: " [FType ty]]) ++ Enter "process_advisories" ::
            match batch with
            | [] => [Print "No advisories found in the response" []]
            | _ => Print "Processing " [FLen (length batch); FStr " advisories"] ::
                   flat_map (record_events py_repr save_path) batch
            end))) = persisted py_repr save_path batch).
  { intros ty. erewrite new_events_of by (cbn [trace]; rewrite <- app_assoc; reflexivity).
    destruct batch as [|x l]; [reflexivity|].
    cbn [app writes]. generalize (x :: l). intros l'.
    induction l' as [|y l' IH]; [reflexivity|].
    cbn [flat_map]. rewrite writes_app, writes_record_events, IH.
    symmetry. apply persisted_cons. }
  rewrite !Hw. repeat split; reflexivity.
Qed.
End Persisting.


Lemma wrapped_and_bare_lists_are_handled_alike_witness :
  dict_get "advisories" [("advisories", JList batch_advisoryId)] = Some (JList batch_advisoryId) /\
  fst (handle_response sample_repr
         (mkResponse 200 (Ok (JDict [("advisories", JList batch_advisoryId)]))) "out" (blank 0)) =
  fst (handle_response sample_repr (mkResponse 200 (Ok (JList batch_advisoryId))) "out" (blank 0)).
Proof.
  split; [reflexivity|].
  exact (proj1 (wrapped_and_bare_lists_are_handled_alike sample_repr "out" 200
                  [("advisories", JList batch_advisoryId)] batch_advisoryId (blank 0) eq_refl)).
Defined.

(** ** The date range *)

Lemma scan_fst p : fst (scan p) = 1 + Z.pos p.
Proof.
  unfold scan. induction p using Pos.peano_ind.
  - reflexivity.
  - rewrite Pos.iter_succ. cbn [fst]. rewrite IHp. lia.
Qed.

Lemma scan_all p : snd (scan p) = true -> forall n, 1 <= n <= Z.pos p -> date_ok n = true.
Proof.
  unfold scan. induction p using Pos.peano_ind; intros H n Hn.
  - assert (n = 1) by lia. subst. cbn in H. exact H.
  - rewrite Pos.iter_succ in H. cbn [snd] in H. apply andb_true_iff in H as [H1 H2].
    fold (scan p) in *. rewrite scan_fst in H2.
    destruct (Z.eq_dec n (1 + Z.pos p)) as [->|Hne]; [exact H2|].
    apply IHp; [exact H1|lia].
Qed.

Lemma cycle_ok : snd (scan 146097) = true.
Proof. vm_compute. reflexivity. Qed.

Lemma days_before_year_shift y k :
  days_before_year (y + 400 * k) = days_before_year y + 146097 * k.
Proof. unfold days_before_year. Z.div_mod_to_equations. lia. Qed.

Lemma is_leap_shift y k : is_leap (y + 400 * k) = is_leap y.
Proof.
  unfold is_leap.
  replace ((y + 400 * k) mod 4) with (y mod 4) by (Z.div_mod_to_equations; lia).
  replace ((y + 400 * k) mod 100) with (y mod 100) by (Z.div_mod_to_equations; lia).
  replace ((y + 400 * k) mod 400) with (y mod 400) by (Z.div_mod_to_equations; lia).
  reflexivity.
Qed.

Lemma ymd2ord_shift y m d k : ymd2ord (y + 400 * k) m d = ymd2ord y m d + 146097 * k.
Proof.
  unfold ymd2ord, days_before_month. rewrite days_before_year_shift, is_leap_shift. lia.
Qed.

Lemma ord2ymd_shift n :
  ord2ymd n = add_years (400 * ((n - 1) / 146097)) (ord2ymd ((n - 1) mod 146097 + 1)).
Proof.
  assert (Hr : 0 <= (n - 1) mod 146097 < 146097) by (apply Z.mod_pos_bound; lia).
  unfold ord2ymd.
  replace ((n - 1) mod 146097 + 1 - 1) with ((n - 1) mod 146097) by lia.
  rewrite (Z.div_small ((n - 1) mod 146097) 146097) by exact Hr.
  rewrite (Z.mod_small ((n - 1) mod 146097) 146097) by exact Hr.
  cbv zeta.
  set (r := (n - 1) mod 146097). set (k := (n - 1) / 146097).
  repeat match goal with
         | |- context [if ?b then _ else _] => destruct b
         end; cbn [add_years]; f_equal; try f_equal; lia.
Qed.

(** [ord2ymd] inverts [ymd2ord]: day [n] is given the calendar date whose
    ordinal is [n]. *)
Lemma toordinal_ord2ymd n : toordinal (ord2ymd n) = n /\ calendar_date (ord2ymd n).
Proof.
  rewrite ord2ymd_shift.
  assert (Hr : 0 <= (n - 1) mod 146097 < 146097) by (apply Z.mod_pos_bound; lia).
  assert (Hn : n = (n - 1) mod 146097 + 1 + 146097 * ((n - 1) / 146097)).
  { pose proof (Z.div_mod (n - 1) 146097 ltac:(lia)). lia. }
  pose proof (scan_all 146097 cycle_ok ((n - 1) mod 146097 + 1) ltac:(lia)) as Hok.
  unfold date_ok in Hok.
  destruct (ord2ymd ((n - 1) mod 146097 + 1)) as [[y m] d].
  cbn [add_years toordinal calendar_date].
  rewrite ymd2ord_shift, is_leap_shift.
  rewrite !andb_true_iff in Hok. destruct Hok as [[[[H1 H2] H3] H4] H5].
  apply Z.eqb_eq in H1. apply Z.leb_le in H2, H3, H4, H5.
  repeat split; try assumption. lia.
Qed.

Lemma DAY_pos : 0 < DAY.
Proof. reflexivity. Qed.

Lemma date_of_days_before t days : date_of (t - days * DAY) = ord2ymd (t / DAY + 1 - days).
Proof.
  unfold date_of. f_equal.
  replace (t - days * DAY) with (t + (- days) * DAY) by ring.
  rewrite Z.div_add by (pose proof DAY_pos; lia). ring.
Qed.








(** ** Running [download_csaf] *)

(** Decomposes a goal [inv (keeps f) m] along the text of [m]. *)
Ltac inv_keeps_step known :=
  lazymatch goal with
  | |- inv _ (ret _) => apply inv_ret; typeclasses eauto
  | |- inv _ (raise _) => apply inv_raise; typeclasses eauto
  | |- inv _ (lift _) => apply inv_lift; typeclasses eauto
  | |- inv _ datetime_now => intros ?; reflexivity
  | |- inv _ (attr _) => intros ?; reflexivity
  | |- inv _ (assign _) => intros ?; reflexivity
  | |- inv _ (os_path_exists _) => intros ?; reflexivity
  | |- inv _ (emit _) => intros ?; reflexivity
  | |- inv _ (write_json _ _) => intros ?; reflexivity
  | |- inv _ exchange =>
      let w := fresh "w" in
      intros w; unfold keeps, exchange; destruct (network w) as [|[?|?] ?]; reflexivity
  | |- inv _ (time_sleep ?us) =>
      let w := fresh "w" in
      intros w; unfold keeps, time_sleep; destruct (us <? 0); reflexivity
  | |- inv _ (os_makedirs ?p) =>
      let w := fresh "w" in
      intros w; unfold keeps, os_makedirs; destruct (fs w !! p); reflexivity
  | |- inv _ (fun w => match fs w !! ?p with _ => _ end) =>
      let w := fresh "w" in
      intros w; unfold keeps; destruct (fs w !! p) as [[|[?|]]|]; reflexivity
  | |- inv _ (bind _ _) => apply inv_bind; [typeclasses eauto| |intros ?]
  | |- inv _ (try_except _ _) => apply inv_try_except; [typeclasses eauto| |intros ?]
  | |- inv _ (when _ _) => apply inv_when; [typeclasses eauto|]
  | |- inv _ (for_each _ _) => apply inv_for_each; [typeclasses eauto|intros ?]
  | |- inv _ (let _ := _ in _) => cbv zeta
  | |- inv _ (if ?b then _ else _) => destruct b
  | |- inv _ (match ?x with _ => _ end) => destruct x
  | |- _ => known
  end.

Ltac inv_keeps_with known := repeat (inv_keeps_step known).

Lemma wait_if_needed_keeps_fs : inv (keeps fs) wait_if_needed.
Proof. unfold wait_if_needed; unfold_prims. inv_keeps_with fail. Qed.

Lemma wait_if_needed_keeps_network : inv (keeps network) wait_if_needed.
Proof. unfold wait_if_needed; unfold_prims. inv_keeps_with fail. Qed.

Section Running.
Variable py_repr : json -> string.

Lemma on_error_run e w : on_error e w = (Ok false, logged (error_events e) w).
Proof.
  unfold on_error, error_events, logged, traceback_print_exc, print, emit, bind, ret.
  destruct (is_request_exception e); cbn; rewrite <- ?app_assoc; reflexivity.
Qed.

Lemma download_csaf_run save_path auth_token mode days w :
  download_csaf py_repr save_path auth_token mode days w =
  try_except (attempt py_repr save_path (request_headers py_repr auth_token) mode days) on_error
             (prepared save_path w).
Proof.
  unfold download_csaf, prepared, logged, bind, enter, emit, os_path_exists, when, os_makedirs, ret.
  cbn [fst snd clock fs network limiter trace].
  destruct (fs w !! save_path) eqn:E; cbn [negb fs]; [reflexivity|].
  rewrite E. cbn [clock fs network limiter trace]. rewrite <- app_assoc. reflexivity.
Qed.

Lemma download_csaf_returns save_path auth_token mode days w :
  exists b, fst (download_csaf py_repr save_path auth_token mode days w) = Ok b.
Proof.
  rewrite download_csaf_run. unfold try_except.
  destruct (attempt _ _ _ _ _ _) as [[b|e] w1]; [exists b; reflexivity|].
  rewrite on_error_run. exists false. reflexivity.
Qed.

(** The three ways [request_url] ends. *)
Lemma request_url_cases mode days w :
  (exists url, forall w', clock w' = clock w -> request_url mode days w' = (Ok (Some url), w')) \/
  (mode <> "all" /\ mode <> "dates" /\
   forall w', request_url mode days w' =
              (Ok None, logged [Print "Invalid mode. Use 'all' or 'dates'." []] w')) \/
  (mode = "dates" /\
   forall w', clock w' = clock w -> request_url mode days w' = (Raise OverflowError, w')).
Proof.
  unfold request_url.
  destruct (String.eqb_spec mode "all") as [->|Hall].
  { left. eexists. intros w' _. reflexivity. }
  destruct (String.eqb_spec mode "dates") as [->|Hdates].
  2:{ right. left. repeat split; try assumption. }
  unfold bind, datetime_now, lift, ret.
  destruct (timedelta_days days) as [delta|e] eqn:Ed.
  2:{ right. right. split; [reflexivity|]. intros w' _.
      unfold timedelta_days in Ed. destruct (_ || _); inversion Ed. reflexivity. }
  destruct (datetime_sub (clock w) delta) as [start|e] eqn:Es.
  - left. eexists. intros w' Hc. rewrite Hc, Es. reflexivity.
  - right. right. split; [reflexivity|]. intros w' Hc. rewrite Hc, Es.
    unfold datetime_sub in Es. destruct (_ && _); inversion Es. reflexivity.
Qed.

Lemma request_url_frame mode days w url :
  fst (request_url mode days w) = Ok (Some url) ->
  forall w', clock w' = clock w -> request_url mode days w' = (Ok (Some url), w').
Proof.
  intros H w' Hc.
  destruct (request_url_cases mode days w) as [[u Hu]|[[_ [_ Hn]]|[_ Hr]]].
  - rewrite (Hu w eq_refl) in H. inversion H; subst. apply Hu, Hc.
  - rewrite Hn in H. discriminate H.
  - rewrite (Hr w eq_refl) in H. discriminate H.
Qed.

Lemma wait_if_needed_run w : wait_if_needed w = (Ok tt, snd (wait_if_needed w)).
Proof.
  pose proof (wait_if_needed_returns w) as H.
  destruct (wait_if_needed w) as [r w1]. cbn in *. subst. reflexivity.
Qed.

(** The [try] block once the URL is built. *)
Lemma attempt_run save_path headers mode days w url :
  fst (request_url mode days w) = Ok (Some url) ->
  attempt py_repr save_path headers mode days w =
  let w2 := logged [Print "Requesting advisories from: " [FStr url]; HttpGet url headers]
                   (snd (wait_if_needed w)) in
  match network w with
  | [] => (Raise ConnectionError, w2)
  | Responds r :: rest =>
      handle_response py_repr r save_path (snd (increment (set_network rest w2)))
  | Fails e :: rest => (Raise e, set_network rest w2)
  end.
Proof.
  intros Hurl. unfold attempt. unfold bind at 1.
  rewrite (request_url_frame _ _ _ _ Hurl w eq_refl).
  unfold bind at 1. rewrite wait_if_needed_run.
  pose proof (wait_if_needed_keeps_network w) as Hnet. unfold keeps in Hnet.
  destruct (snd (wait_if_needed w)) as [clk files net r tr]. cbn in Hnet. subst net.
  destruct (network w) as [|[resp|e] rest];
    cbv beta iota zeta delta [bind requests_get print emit exchange logged set_network
                              fst snd clock fs network limiter trace];
    rewrite <- ?app_assoc; reflexivity.
Qed.
End Running.

(** ** Requests and increments *)

Section Quota.
Variable py_repr : json -> string.

Lemma process_advisories_keeps_limiter advisories save_path :
  inv (keeps limiter) (process_advisories py_repr advisories save_path).
Proof. unfold process_advisories, loop_body; unfold_prims. inv_keeps_with fail. Qed.

Lemma handle_response_keeps_limiter response save_path :
  inv (keeps limiter) (handle_response py_repr response save_path).
Proof.
  unfold handle_response; unfold_prims.
  inv_keeps_with ltac:(idtac; apply process_advisories_keeps_limiter).
Qed.

Lemma quota_view_app a b : quota_view (a ++ b) = quota_view a ++ quota_view b.
Proof. unfold quota_view. apply List.filter_app. Qed.

Lemma quota_view_quiet (Q : event -> bool) evs :
  (forall e, Q e = true -> not_http_get e && not_enter "increment" e = true) ->
  forallb Q evs = true -> quota_view evs = [].
Proof.
  intros HQ Hall. induction evs as [|e evs IH]; [reflexivity|].
  cbn in Hall. apply andb_true_iff in Hall as [He Hall].
  specialize (HQ e He). apply andb_true_iff in HQ as [H1 H2].
  specialize (IH Hall). unfold quota_view in *. cbn [List.filter].
  destruct e; cbn in H1, H2 |- *; try exact IH; try discriminate.
  rewrite negb_true_iff in H2. rewrite H2. exact IH.
Qed.

Lemma calls_of_quota_view evs :
  calls_of "increment" evs = calls_of "increment" (quota_view evs).
Proof.
  unfold calls_of, quota_view. f_equal.
  induction evs as [|e evs IH]; [reflexivity|].
  cbn. destruct e; cbn; try exact IH.
  destruct (String.eqb fn "increment") eqn:E; cbn; rewrite ?E; rewrite IH; reflexivity.
Qed.

Lemma wait_if_needed_frame w w' :
  clock w' = clock w -> limiter w' = limiter w ->
  limiter (snd (wait_if_needed w')) = limiter (snd (wait_if_needed w)).
Proof.
  destruct w as [clk f net [t1 c1 t2 c2 t3 c3] tr].
  destruct w' as [clk' f' net' r' tr'].
  cbn [clock limiter]. intros -> ->.
  unfold wait_if_needed; unfold_limits.
  run_cases; reflexivity.
Qed.
End Quota.

Section Requesting.
Variable py_repr : json -> string.

Lemma prepared_appends save_path w :
  exists pre, trace (prepared save_path w) = trace w ++ pre /\ quota_view pre = [] /\
              clock (prepared save_path w) = clock w /\
              limiter (prepared save_path w) = limiter w /\
              network (prepared save_path w) = network w.
Proof.
  unfold prepared, logged. destruct (fs w !! save_path); eexists; cbn; repeat split.
Qed.

Lemma wait_if_needed_quiet w :
  exists evs, trace (snd (wait_if_needed w)) = trace w ++ evs /\ quota_view evs = [].
Proof.
  destruct (wait_if_needed_vocab w) as [evs [H HQ]]. exists evs. split; [exact H|].
  apply (quota_view_quiet vocab_wait); [vocab_solve|exact HQ].
Qed.

Lemma handle_response_quiet response save_path w :
  let w' := snd (handle_response py_repr response save_path w) in
  exists evs, trace w' = trace w ++ evs /\ quota_view evs = [] /\ limiter w' = limiter w.
Proof.
  cbv zeta. destruct (handle_response_vocab py_repr response save_path w) as [evs [H HQ]].
  exists evs. split; [exact H|]. split.
  - apply (quota_view_quiet vocab_process); [vocab_solve|exact HQ].
  - apply handle_response_keeps_limiter.
Qed.

Lemma error_events_quiet e : quota_view (error_events e) = [].
Proof. unfold error_events. destruct (is_request_exception e); reflexivity. Qed.

(** C3, as the code has it.  In every run of [download_csaf] that reaches
    the HTTP call: when the call returns a response, whatever its status and
    body, [increment] is invoked exactly once, after the request, and each of
    the three counters is one more than [wait_if_needed] left it; when the
    call raises instead (a transport failure, or no answer at all),
    [increment] is not invoked and the counters stay as [wait_if_needed] left
    them. *)
Theorem increment_follows_a_response save_path auth_token mode days w url :
  fst (request_url mode days w) = Ok (Some url) ->
  let run := download_csaf py_repr save_path auth_token mode days w in
  let evs := new_events w (snd run) in
  let admitted := limiter (snd (wait_if_needed w)) in
  let request := HttpGet url (request_headers py_repr auth_token) in
  match network w with
  | Responds _ :: _ =>
      quota_view evs = [request; Enter "increment"] /\
      calls_of "increment" evs = 1%nat /\
      limiter (snd run) = incremented admitted
  | _ =>
      quota_view evs = [request] /\
      calls_of "increment" evs = 0%nat /\
      limiter (snd run) = admitted
  end.
Proof.
  intros Hurl. cbv zeta.
  rewrite calls_of_quota_view.
  rewrite download_csaf_run.
  destruct (prepared_appends save_path w) as [pre [Hpre [Qpre [Hclk [Hlim Hnet]]]]].
  assert (Hurl' : fst (request_url mode days (prepared save_path w)) = Ok (Some url)).
  { rewrite (request_url_frame _ _ _ _ Hurl _ Hclk). reflexivity. }
  unfold try_except. rewrite (attempt_run py_repr _ _ _ _ _ _ Hurl'). cbv zeta.
  rewrite Hnet.
  rewrite <- (wait_if_needed_frame w (prepared save_path w) Hclk Hlim).
  destruct (wait_if_needed_quiet (prepared save_path w)) as [evs1 [H1 Q1]].
  set (w1 := snd (wait_if_needed (prepared save_path w))) in *.
  destruct (network w) as [|[resp|e] rest].
  - rewrite on_error_run.
    erewrite new_events_of
      by (cbn [snd logged trace]; rewrite H1, Hpre, <- !app_assoc; reflexivity).
    rewrite !quota_view_app, Qpre, Q1, error_events_quiet. cbn. auto.
  - set (w5 := snd (increment _)).
    destruct (handle_response_quiet resp save_path w5) as [evs6 [H6 [Q6 L6]]].
    assert (H5 : trace w5 = trace w ++ pre ++ evs1 ++
                   [Print "Requesting advisories from: " [FStr url];
                    HttpGet url (request_headers py_repr auth_token); Enter "increment"]).
    { subst w5. cbn [snd increment]. cbn. rewrite H1, Hpre, <- !app_assoc. reflexivity. }
    assert (Hl5 : limiter w5 = incremented (limiter w1)) by reflexivity.
    destruct (handle_response py_repr resp save_path w5) as [[b|e] w6];
      cbn [snd fst] in *; rewrite ?on_error_run; cbn [snd logged limiter trace].
    + rewrite H5, <- !app_assoc in H6. rewrite (new_events_of _ _ _ H6).
      rewrite !quota_view_app, Qpre, Q1, Q6. cbn. rewrite L6, Hl5. auto.
    + rewrite H5, <- !app_assoc in H6.
      erewrite new_events_of by (cbn [logged trace]; rewrite H6, <- !app_assoc; reflexivity).
      rewrite !quota_view_app, Qpre, Q1, Q6, error_events_quiet. cbn. rewrite L6, Hl5. auto.
  - rewrite on_error_run.
    erewrite new_events_of
      by (cbn [snd logged set_network trace]; rewrite H1, Hpre, <- !app_assoc; reflexivity).
    rewrite !quota_view_app, Qpre, Q1, error_events_quiet. cbn. auto.
Qed.
End Requesting.

Lemma increment_follows_a_response_witness :
  fst (request_url "all" 2 served) = Ok (Some CISCO_API_BASE_URL) /\
  limiter (snd (download_csaf sample_repr "out" (JStr "token") "all" 2 served)) =
  incremented (limiter (snd (wait_if_needed served))).
Proof.
  split; [reflexivity|].
  exact (proj2 (proj2 (increment_follows_a_response sample_repr "out" (JStr "token") "all" 2
                         served CISCO_API_BASE_URL eq_refl))).
Defined.

(** C3, as the claim has it, fails on a transport failure: [requests.get]
    raises, the [except] clause is entered and [increment] is skipped; the
    request was made and no counter moved. *)
Lemma no_increment_after_transport_failure :
  let run := download_csaf sample_repr "out" (JStr "token") "all" 2 unreachable in
  fst run = Ok false /\
  existsb is_http_get (trace (snd run)) = true /\
  calls_of "increment" (trace (snd run)) = 0%nat /\
  limiter (snd run) = limiter (snd (wait_if_needed unreachable)) /\
  second_counter (limiter (snd run)) = 0 /\
  minute_counter (limiter (snd run)) = 0 /\
  day_counter (limiter (snd run)) = 0.
Proof. vm_compute. repeat split. Qed.
(** ** Failed attempts *)

Section Directory.
Variable py_repr : json -> string.

Lemma request_url_keeps_fs mode days : inv (keeps fs) (request_url mode days).
Proof. unfold request_url; unfold_prims. inv_keeps_with fail. Qed.



Lemma wait_if_needed_fs w : fs (snd (wait_if_needed w)) = fs w.
Proof. apply wait_if_needed_keeps_fs. Qed.





(** The [try] block followed by the [except] clauses: the events of the
    block, then those of the clause that handled its exception, if any. *)
Lemma tried_split save_path headers mode days w :
  let body := attempt py_repr save_path headers mode days w in
  let res := try_except (attempt py_repr save_path headers mode days) on_error w in
  exists a b,
    trace (snd res) = trace w ++ a ++ b /\
    new_events w (snd body) = a /\
    forallb vocab_attempt a = true /\
    ((exists r, fst body = Ok r /\ fst res = Ok r /\ b = [] /\ snd res = snd body) \/
     (exists e, fst body = Raise e /\ fst res = Ok false /\ b = error_events e /\
                snd res = logged (error_events e) (snd body))).
Proof.
  cbv zeta. unfold try_except.
  destruct (attempt_vocab py_repr save_path headers mode days w) as [a [Ha Qa]].
  exists a.
  destruct (attempt py_repr save_path headers mode days w) as [[r|e] w1]; cbn [fst snd] in *.
  - exists []. rewrite app_nil_r. repeat split; try assumption.
    + apply new_events_of, Ha.
    + left. exists r. auto.
  - exists (error_events e). rewrite on_error_run. cbn [fst snd logged trace].
    rewrite Ha, <- app_assoc. repeat split; try assumption.
    + apply new_events_of, Ha.
    + right. exists e. auto.
Qed.



End Directory.

(** ** The output directory *)

Section OutputDirectory.
Variable py_repr : json -> string.


Lemma error_events_vocab e : forallb vocab_error (error_events e) = true.
Proof. unfold error_events. destruct (is_request_exception e); reflexivity. Qed.

(** The events of [download_csaf]: entry, the creation of the directory
    when the path did not exist, then those of the [try] block and of the
    [except] clause. *)
Lemma download_csaf_events save_path auth_token mode days w :
  let run := download_csaf py_repr save_path auth_token mode days w in
  exists a b,
    new_events w (snd run) =
      Enter "download_csaf" ::
      match fs w !! save_path with None => [Makedirs save_path] | Some _ => [] end ++ a ++ b /\
    forallb vocab_attempt a = true /\ forallb vocab_error b = true.
Proof.
  cbv zeta. rewrite download_csaf_run.
  destruct (tried_split py_repr save_path (request_headers py_repr auth_token) mode days
              (prepared save_path w)) as [a [b [Ht [_ [Qa Hcase]]]]].
  cbv zeta in *. exists a, b. split; [|split; [exact Qa|]].
  - apply new_events_of. rewrite Ht. unfold prepared, logged.
    destruct (fs w !! save_path); cbn [trace]; rewrite <- !app_assoc; reflexivity.
  - destruct Hcase as [[r [_ [_ [-> _]]]]|[e [_ [_ [-> _]]]]];
      [reflexivity|apply error_events_vocab].
Qed.

End OutputDirectory.


(** ** The driver *)

Section Driver.
Variable py_repr : json -> string.

Lemma calls_of_app fn a b : calls_of fn (a ++ b) = (calls_of fn a + calls_of fn b)%nat.
Proof. unfold calls_of. rewrite List.filter_app, length_app. reflexivity. Qed.

Lemma calls_of_quiet fn (Q : event -> bool) evs :
  (forall e, Q e = true -> not_enter fn e = true) ->
  forallb Q evs = true -> calls_of fn evs = 0%nat.
Proof.
  intros HQ Hall. unfold calls_of.
  induction evs as [|e evs IH]; [reflexivity|].
  cbn in Hall. apply andb_true_iff in Hall as [He Hall].
  specialize (HQ e He). specialize (IH Hall). cbn [List.filter].
  destruct e; cbn in HQ |- *; try exact IH.
  rewrite negb_true_iff in HQ. rewrite HQ. exact IH.
Qed.

Lemma existsb_quiet (P Q : event -> bool) evs :
  (forall e, Q e = true -> P e = false) -> forallb Q evs = true -> existsb P evs = false.
Proof.
  intros HQ Hall. induction evs as [|e evs IH]; [reflexivity|].
  cbn in Hall. apply andb_true_iff in Hall as [He Hall].
  cbn. rewrite (HQ e He), (IH Hall). reflexivity.
Qed.

Lemma token_request_vocab : inv (appends vocab_io) token_request.
Proof. unfold token_request; unfold_prims. inv_appends_with fail. Qed.

Lemma get_new_token_run w :
  exists t rest,
    fst (get_new_token w) = Ok t /\
    trace (snd (get_new_token w)) = trace w ++ Enter "get_new_token" :: rest /\
    forallb vocab_io rest = true.
Proof.
  unfold get_new_token, bind. cbn [enter emit]. unfold try_except.
  match goal with |- context [token_request ?w] => set (w0 := w) end.
  destruct (token_request_vocab w0) as [evs [Hevs Qevs]].
  destruct (token_request w0) as [[t|e] w1]; cbv beta iota; cbn [fst snd] in *.
  - exists t, evs. split; [reflexivity|]. split; [|exact Qevs].
    cbn [snd]. rewrite Hevs. subst w0. cbn [trace]. rewrite <- app_assoc. reflexivity.
  - exists JNull, (evs ++ [Print "Error generating new token: " [FExn e]]).
    unfold token_error, bind, print, emit, ret. cbn [fst snd trace].
    split; [reflexivity|]. split.
    + rewrite Hevs. subst w0. cbn [trace]. rewrite <- !app_assoc. reflexivity.
    + rewrite forallb_app, Qevs. reflexivity.
Qed.

Lemma download_csaf_counts save_path auth_token mode days w :
  let run := download_csaf py_repr save_path auth_token mode days w in
  exists b evs,
    fst run = Ok b /\
    trace (snd run) = trace w ++ evs /\
    calls_of "download_csaf" evs = 1%nat /\
    calls_of "get_new_token" evs = 0%nat.
Proof.
  cbv zeta.
  destruct (download_csaf_returns py_repr save_path auth_token mode days w) as [b Hb].
  destruct (download_csaf_events py_repr save_path auth_token mode days w) as [x [y [Hev [Qx Qy]]]].
  cbv zeta in Hev.
  destruct (download_csaf_vocab py_repr save_path auth_token mode days w) as [evs [Ht _]].
  rewrite (new_events_of _ _ _ Ht) in Hev. subst evs.
  eexists. eexists. split; [exact Hb|]. split; [exact Ht|].
  change (Enter "download_csaf" :: ?l ++ x ++ y) with ([Enter "download_csaf"] ++ l ++ x ++ y).
  assert (Hx1 := calls_of_quiet "download_csaf" vocab_attempt x ltac:(vocab_solve) Qx).
  assert (Hx2 := calls_of_quiet "get_new_token" vocab_attempt x ltac:(vocab_solve) Qx).
  assert (Hy1 := calls_of_quiet "download_csaf" vocab_error y ltac:(vocab_solve) Qy).
  assert (Hy2 := calls_of_quiet "get_new_token" vocab_error y ltac:(vocab_solve) Qy).
  rewrite !calls_of_app, Hx1, Hx2, Hy1, Hy2.
  destruct (fs w !! save_path); split; reflexivity.
Qed.

Lemma get_new_token_counts w :
  exists t evs,
    fst (get_new_token w) = Ok t /\
    trace (snd (get_new_token w)) = trace w ++ evs /\
    calls_of "get_new_token" evs = 1%nat /\
    calls_of "download_csaf" evs = 0%nat /\
    existsb is_http_get evs = false /\
    existsb is_traceback evs = false.
Proof.
  destruct (get_new_token_run w) as [t [rest [Ht [Htr Q]]]].
  exists t, (Enter "get_new_token" :: rest). split; [exact Ht|]. split; [exact Htr|].
  change (Enter "get_new_token" :: rest) with ([Enter "get_new_token"] ++ rest).
  rewrite !calls_of_app, !existsb_app.
  rewrite (calls_of_quiet "get_new_token" vocab_io rest ltac:(vocab_solve) Q).
  rewrite (calls_of_quiet "download_csaf" vocab_io rest ltac:(vocab_solve) Q).
  rewrite (existsb_quiet is_http_get vocab_io rest) by (try exact Q; intros [] H; cbn in *; congruence).
  rewrite (existsb_quiet is_traceback vocab_io rest) by (try exact Q; intros [] H; cbn in *; congruence).
  repeat split.
Qed.

Ltac count_singletons :=
  repeat match goal with
         | |- context [calls_of ?f [?e]] =>
             let v := eval vm_compute in (calls_of f [e]) in
             change (calls_of f [e]) with v
         end;
  cbn [Nat.add].

Lemma RateLimiter_init_run w :
  RateLimiter_init w =
  (Ok tt, mkWorld (clock w) (fs w) (network w)
                  (mkRateLimiter (clock w) 0 (clock w) 0 (clock w) 0)
                  (trace w ++ [Enter "RateLimiter.__init__"])).
Proof. reflexivity. Qed.

(** The retry logic of [main], run step by step. *)
Lemma attempts_counts args auth_token w :
  let run := attempts py_repr args auth_token w in
  let evs := new_events w (snd run) in
  let first := download_csaf py_repr (path args) auth_token (mode args) (days args)
                             (snd (RateLimiter_init w)) in
  let refresh := get_new_token (logged [Print MSG_FIRST_FAILED []] (snd first)) in
  fst run = Ok tt /\
  appends any_event w (snd run) /\
  (fst first = Ok true ->
   calls_of "download_csaf" evs = 1%nat /\ calls_of "get_new_token" evs = 0%nat) /\
  (fst first = Ok false ->
   calls_of "get_new_token" evs = 1%nat /\
   forall t, fst refresh = Ok t ->
             calls_of "download_csaf" evs = if truthy t then 2%nat else 1%nat) /\
  (calls_of "download_csaf" evs <= 2)%nat /\ (calls_of "get_new_token" evs <= 1)%nat.
Proof.
  cbv zeta.
  split; [|split; [apply attempts_appends|]].
  { pose proof (attempts_appends py_repr args auth_token w) as _.
    unfold attempts, bind. rewrite RateLimiter_init_run. cbv beta iota.
    match goal with |- context [download_csaf _ _ _ _ _ ?x] => set (w0 := x) end.
    destruct (download_csaf_returns py_repr (path args) auth_token (mode args) (days args) w0)
      as [b Hb].
    destruct (download_csaf _ _ _ _ _ w0) as [r1 w1]. cbn in Hb. subst r1.
    destruct b; cbn [negb when]; [reflexivity|].
    unfold bind, print, emit. cbv beta iota.
    match goal with |- context [get_new_token ?x] => set (w3 := x) end.
    destruct (get_new_token_counts w3) as [t [evs [Ht _]]].
    destruct (get_new_token w3) as [r2 w4]. cbn in Ht. subst r2. cbv beta iota.
    destruct (truthy t); [|reflexivity].
    cbv beta iota.
    match goal with |- context [download_csaf ?a ?b ?c ?d ?e ?x] =>
      destruct (download_csaf_returns a b c d e x) as [b2 Hb2];
      destruct (download_csaf a b c d e x) as [r3 w6]; cbn in Hb2; subst r3
    end.
    reflexivity. }
  unfold attempts, bind. rewrite RateLimiter_init_run. cbv beta iota. cbn [snd].
  match goal with |- context [download_csaf _ _ _ _ _ ?x] => set (w0 := x) in * end.
  assert (H0 : trace w0 = trace w ++ [Enter "RateLimiter.__init__"]) by reflexivity.
  destruct (download_csaf_counts (path args) auth_token (mode args) (days args) w0)
    as [b [evs1 [Hb [H1 [D1 T1]]]]]. cbv zeta in *.
  destruct (download_csaf _ _ _ _ _ w0) as [r1 w1]. cbn [fst snd] in *. subst r1.
  destruct b; cbn [negb when].
  { cbn [ret snd]. rewrite H0 in H1. rewrite <- app_assoc in H1.
    rewrite (new_events_of _ _ _ H1), !calls_of_app, D1, T1. count_singletons.
    repeat split; try lia; try congruence. }
  unfold bind, print, emit, logged, MSG_FIRST_FAILED. cbv beta iota.
  match goal with |- context [get_new_token ?x] => set (w3 := x) in * end.
  assert (H3 : trace w3 = trace w1 ++ [Print MSG_FIRST_FAILED []]) by reflexivity.
  destruct (get_new_token_counts w3) as [t [evs2 [Ht [H4 [T2 [D2 _]]]]]].
  destruct (get_new_token w3) as [r2 w4]. cbn [fst snd] in *. subst r2. cbv beta iota.
  assert (H4' : trace w4 = trace w ++ [Enter "RateLimiter.__init__"] ++ evs1 ++
                  [Print MSG_FIRST_FAILED []] ++ evs2).
  { rewrite H4, H3, H1, H0, <- !app_assoc. reflexivity. }
  destruct (truthy t) eqn:Etruthy.
  - cbv beta iota.
    match goal with |- context [download_csaf ?a ?b ?c ?d ?e ?x] =>
      destruct (download_csaf_counts b c d e x) as [b2 [evs3 [Hb2 [H6 [D3 T3]]]]];
      cbv zeta in *;
      destruct (download_csaf a b c d e x) as [r3 w6]; cbn [fst snd] in *; subst r3
    end.
    cbn [trace] in H6. rewrite H4', <- !app_assoc in H6.
    cbn [ret snd]. rewrite (new_events_of _ _ _ H6), !calls_of_app, D1, T1, D2, T2, D3, T3. count_singletons.
    repeat split; try lia; try congruence.
    intros t' Ht'. inversion Ht'; subst t'. rewrite Etruthy. reflexivity.
  - cbn [snd trace].
    erewrite new_events_of by (rewrite H4', <- !app_assoc; reflexivity).
    rewrite !calls_of_app, D1, T1, D2, T2. count_singletons.
    repeat split; try lia; try congruence.
    intros t' Ht'. inversion Ht'; subst t'. rewrite Etruthy. reflexivity.
Qed.

(** What the run ends with after a failed first attempt. *)
Lemma attempts_second_call args auth_token w t :
  let run := attempts py_repr args auth_token w in
  let first := download_csaf py_repr (path args) auth_token (mode args) (days args)
                             (snd (RateLimiter_init w)) in
  let refresh := get_new_token (logged [Print MSG_FIRST_FAILED []] (snd first)) in
  fst first = Ok false -> fst refresh = Ok t ->
  snd run =
  if truthy t then
    snd (download_csaf py_repr (path args) t (mode args) (days args)
           (logged [Print "Retrying download with new token..." []] (snd refresh)))
  else logged [Print "Failed to obtain new token. Cannot retry download." []] (snd refresh).
Proof.
  cbv zeta. unfold attempts, bind. rewrite RateLimiter_init_run. cbv beta iota. cbn [snd].
  match goal with |- context [download_csaf _ _ _ _ _ ?x] => set (w0 := x) in * end.
  destruct (download_csaf _ _ _ _ _ w0) as [r1 w1]. cbn [fst snd]. intros ->.
  cbn [negb when]. unfold bind, print, emit, logged, MSG_FIRST_FAILED. cbv beta iota.
  match goal with |- context [get_new_token ?x] => set (w3 := x) in * end.
  destruct (get_new_token w3) as [r2 w4]. cbn [fst snd]. intros ->. cbv beta iota.
  destruct (truthy t); [|reflexivity].
  cbv beta iota.
  match goal with |- context [download_csaf ?a ?b ?c ?d ?e ?x] =>
    destruct (download_csaf_returns a b c d e x) as [b2 Hb2];
    destruct (download_csaf a b c d e x) as [r3 w6]; cbn in Hb2; subst r3
  end.
  reflexivity.
Qed.

Lemma main_counts args w :
  let run := main py_repr args w in
  let evs := new_events w (snd run) in
  fst run = Ok tt /\
  (calls_of "download_csaf" evs <= 2)%nat /\
  (calls_of "get_new_token" evs <= if truthy (cli_token args) then 1 else 2)%nat.
Proof.
  cbv zeta. unfold main, bind, enter, emit. cbv beta iota.
  destruct (truthy (cli_token args)) eqn:Ecli; cbn [negb].
  - match goal with |- context [attempts _ _ _ ?x] => set (w1 := x) end.
    destruct (attempts_counts args (cli_token args) w1) as [Hr [Ha [_ [_ [Hd Ht]]]]].
    cbv zeta in *. apply appends_new_events in Ha as [Ha _].
    assert (H1 : trace w1 = trace w ++ [Enter "main"]) by reflexivity.
    rewrite H1, <- app_assoc in Ha. rewrite (new_events_of _ _ _ Ha), !calls_of_app.
    count_singletons. split; [exact Hr|]. lia.
  - unfold print, emit, bind. cbv beta iota.
    match goal with |- context [get_new_token ?x] => set (w1 := x) end.
    assert (H1 : trace w1 = trace w ++ [Enter "main"] ++
                   [Print "No token provided, attempting to generate one from credentials.json" []]).
    { subst w1. cbn [trace]. rewrite <- app_assoc. reflexivity. }
    destruct (get_new_token_counts w1) as [t [evs2 [Ht [H2 [T2 [D2 _]]]]]].
    destruct (get_new_token w1) as [r2 w2]. cbn [fst snd] in *. subst r2. cbv beta iota.
    rewrite H1, <- !app_assoc in H2.
    destruct (truthy t); cbn [negb].
    + destruct (attempts_counts args t w2) as [Hr [Ha [_ [_ [Hd Hg]]]]].
      cbv zeta in *. apply appends_new_events in Ha as [Ha _].
      rewrite H2, <- !app_assoc in Ha. rewrite (new_events_of _ _ _ Ha), !calls_of_app, T2, D2.
      count_singletons. split; [exact Hr|]. lia.
    + cbn [fst snd trace].
      erewrite new_events_of by (rewrite H2, <- !app_assoc; reflexivity).
      rewrite !calls_of_app, T2, D2. count_singletons. split; [reflexivity|]. lia.
Qed.




(** C2, as the code has it.  Once there is a token, [download_csaf] is
    called; if it returns [True] nothing else is called.  If it returns
    [False], for whatever reason, [get_new_token] is called exactly once and
    [download_csaf] is called a second time, with the new token, exactly when
    that call returned a token; the run ends where the second call ends,
    whatever it returns.  In every run
    there are at most two calls of [download_csaf] and at most one refresh
    (one more call of [get_new_token] comes first when no token was given on
    the command line), and [main] returns. *)
Theorem retry_once_after_a_failed_attempt :
  (forall args auth_token w,
     let run := attempts py_repr args auth_token w in
     let evs := new_events w (snd run) in
     let first := download_csaf py_repr (path args) auth_token (mode args) (days args)
                                (snd (RateLimiter_init w)) in
     let refresh := get_new_token (logged [Print MSG_FIRST_FAILED []] (snd first)) in
     fst run = Ok tt /\
     (fst first = Ok true ->
      calls_of "download_csaf" evs = 1%nat /\ calls_of "get_new_token" evs = 0%nat) /\
     (fst first = Ok false ->
      calls_of "get_new_token" evs = 1%nat /\
      forall t, fst refresh = Ok t ->
                calls_of "download_csaf" evs = (if truthy t then 2%nat else 1%nat) /\
                snd run =
                if truthy t then
                  snd (download_csaf py_repr (path args) t (mode args) (days args)
                         (logged [Print "Retrying download with new token..." []]
                                 (snd refresh)))
                else logged [Print "Failed to obtain new token. Cannot retry download." []]
                            (snd refresh)) /\
     (calls_of "download_csaf" evs <= 2)%nat /\ (calls_of "get_new_token" evs <= 1)%nat) /\
  (forall args w,
     let run := main py_repr args w in
     let evs := new_events w (snd run) in
     fst run = Ok tt /\
     (calls_of "download_csaf" evs <= 2)%nat /\
     (calls_of "get_new_token" evs <= if truthy (cli_token args) then 1 else 2)%nat).
Proof.
  split.
  - intros args auth_token w.
    destruct (attempts_counts args auth_token w) as [H1 [_ [H2 [H3 H4]]]]. cbv zeta in *.
    split; [exact H1|]. split; [exact H2|]. split; [|exact H4].
    intros Hfalse. destruct (H3 Hfalse) as [Htok Hdl]. split; [exact Htok|].
    intros t Ht. split; [apply Hdl, Ht|].
    apply (attempts_second_call args auth_token w t Hfalse Ht).
  - exact main_counts.
Qed.

End Driver.

(** C2, as the claim has it, fails: the retry does not need an
    authentication error.  Here the first request fails in transport (no 403
    is ever seen); the token is refreshed all the same and [download_csaf]
    is called a second time. *)
Lemma retry_after_a_transport_failure :
  let run := main sample_repr (mkArgs "downloaded_csaf" (Some "stale") "all" 2) flaky in
  fst run = Ok tt /\
  printed MSG_403 (trace (snd run)) = false /\
  printed "Error retrieving CSAF list: " (trace (snd run)) = true /\
  calls_of "get_new_token" (trace (snd run)) = 1%nat /\
  calls_of "download_csaf" (trace (snd run)) = 2%nat.
Proof. vm_compute. repeat split. Qed.


(** * Further properties of the code *)

(** ** How long [wait_if_needed] waits *)

Ltac split_cases :=
  repeat match goal with
         | |- context [?a <=? ?b] => destruct (Z.leb_spec a b); try (exfalso; lia)
         | |- context [?a <? ?b] => destruct (Z.ltb_spec a b); try (exfalso; lia)
         end.

Lemma wait_time w :
  let w' := snd (wait_if_needed w) in
  sleeps (new_events w w') = flat_map (fun win => due win w) windows /\
  clock w' = clock w + sum_of (flat_map (fun win => due win w) windows).
Proof.
  destruct w as [now files net [ts sc tm mc td dc] tr].
  unfold wait_if_needed, windows, due, second_window, minute_window, day_window, sum_of.
  cbn [flat_map duration limit counter timestamp].
  unfold_limits.
  run_cases; new_events_norm; cbn [sleeps]; split_cases;
  cbn; split; try reflexivity; lia.
Qed.

(** X1.  [wait_if_needed] sleeps once for each window whose counter has
    reached its limit and whose duration has not elapsed when the function is
    entered, in the order second, minute, day, each time for the window's
    duration less the time elapsed at entry.  Every sleep is computed from
    the time read at entry, so the sleeps add up: the function returns at the
    time of entry plus their sum. *)
Theorem waits_add_up w :
  let w' := snd (wait_if_needed w) in
  sleeps (new_events w w') = due second_window w ++ due minute_window w ++ due day_window w /\
  clock w' =
    clock w + sum_of (due second_window w ++ due minute_window w ++ due day_window w).
Proof.
  destruct (wait_time w) as [H1 H2]. cbv zeta in *.
  unfold windows in H1, H2. cbn [flat_map] in H1, H2. rewrite app_nil_r in H1, H2.
  split; assumption.
Qed.

Lemma wait_below w :
  Forall (fun win => counter win (limiter w) < limit win) windows ->
  new_events w (snd (wait_if_needed w)) = [Enter "wait_if_needed"] /\
  clock (snd (wait_if_needed w)) = clock w.
Proof.
  destruct w as [now files net [ts sc tm mc td dc] tr].
  unfold windows, second_window, minute_window, day_window.
  intros H. inversion_clear H as [|? ? Hs H']. inversion_clear H' as [|? ? Hm H''].
  inversion_clear H'' as [|? ? Hd _]. cbn in Hs, Hm, Hd.
  unfold wait_if_needed. unfold_limits.
  run_cases; new_events_norm; split; reflexivity.
Qed.

Lemma step_at_most o k w :
  0 <= k -> counters_at_most k w ->
  counters_at_most (k + match o with Increment => 1 | _ => 0 end) (snd (step o w)).
Proof.
  unfold counters_at_most, windows, second_window, minute_window, day_window.
  intros Hk H. inversion_clear H as [|? ? Hs H']. inversion_clear H' as [|? ? Hm H''].
  inversion_clear H'' as [|? ? Hd _]. cbn [counter] in *.
  destruct o as [us| |]; cbn [step].
  - repeat constructor; cbn; lia.
  - destruct (wait_if_needed_counters w) as [[?|?] [[?|?] [?|?]]]; cbv zeta in *;
      repeat constructor; cbn [counter]; lia.
  - destruct (increment_counters w) as [? [? ?]]; cbv zeta in *;
      repeat constructor; cbn [counter]; lia.
Qed.

Lemma run_at_most ops : forall k w,
  0 <= k -> counters_at_most k w ->
  counters_at_most (k + Z.of_nat (increments ops)) (run ops w).
Proof.
  induction ops as [|o ops IH]; intros k w Hk H; cbn [run].
  - unfold increments. cbn. rewrite Z.add_0_r. exact H.
  - pose proof (step_at_most o k w Hk H) as H1.
    apply IH in H1; [|destruct o; lia].
    replace (k + Z.of_nat (increments (o :: ops)))
      with (k + match o with Increment => 1 | _ => 0 end + Z.of_nat (increments ops));
      [exact H1|].
    unfold increments. destruct o; cbn [List.filter length]; lia.
Qed.

(** X2.  After [RateLimiter()], whatever the times of the calls, as long as
    fewer than five calls have been counted [wait_if_needed] returns at once:
    it does not sleep and prints nothing. *)
Theorem the_first_calls_pass_at_once t ops :
  Z.of_nat (increments ops) < SECOND_LIMIT ->
  let w := run ops (booted t) in
  let w' := snd (wait_if_needed w) in
  new_events w w' = [Enter "wait_if_needed"] /\ clock w' = clock w.
Proof.
  intros Hn w. apply wait_below.
  assert (H : counters_at_most (0 + Z.of_nat (increments ops)) w).
  { apply run_at_most; [lia|]. repeat constructor; cbn; lia. }
  revert H. unfold counters_at_most, windows. rewrite !Forall_cons.
  unfold second_window, minute_window, day_window. cbn [counter limit].
  unfold_limits. intros [? [? [? _]]]. repeat split; try lia. constructor.
Qed.

Lemma the_first_calls_pass_at_once_witness :
  Z.of_nat (increments (one_call ++ Tick 5 :: one_call)) < SECOND_LIMIT /\
  let w := run (one_call ++ Tick 5 :: one_call) (booted 0) in
  clock (snd (wait_if_needed w)) = clock w.
Proof.
  split; [reflexivity|].
  exact (proj2 (the_first_calls_pass_at_once 0 (one_call ++ Tick 5 :: one_call) eq_refl)).
Defined.

Lemma step_timestamps_past o w :
  forward o -> timestamps_past w -> timestamps_past (snd (step o w)).
Proof.
  destruct w as [now files net [ts sc tm mc td dc] tr].
  unfold timestamps_past, windows, second_window, minute_window, day_window.
  rewrite !Forall_cons.
  cbn [timestamp clock limiter second_timestamp minute_timestamp day_timestamp].
  intros Hf [Hs [Hm [Hd _]]].
  destruct o as [us| |]; cbn [step forward] in *.
  - cbn. repeat split; try lia. constructor.
  - unfold wait_if_needed. unfold_limits.
    run_cases; cbn; repeat split; try lia; constructor.
  - cbn. repeat split; try lia. constructor.
Qed.

Lemma run_timestamps_past ops : forall w,
  Forall forward ops -> timestamps_past w -> timestamps_past (run ops w).
Proof.
  induction ops as [|o ops IH]; intros w Hf H; cbn [run]; [exact H|].
  inversion_clear Hf. apply IH; [assumption|]. apply step_timestamps_past; assumption.
Qed.

Lemma wait_bounded w :
  timestamps_past w ->
  let w' := snd (wait_if_needed w) in
  clock w <= clock w' <= clock w + (SECOND + MINUTE + DAY) /\
  Forall (fun us => 0 < us <= DAY) (sleeps (new_events w w')).
Proof.
  intros Hp. cbv zeta.
  destruct (wait_time w) as [-> ->].
  revert Hp.
  destruct w as [now files net [ts sc tm mc td dc] tr].
  unfold timestamps_past, windows, second_window, minute_window, day_window, due, sum_of.
  rewrite !Forall_cons.
  cbn [flat_map timestamp duration counter limit clock limiter
       second_timestamp minute_timestamp day_timestamp
       second_counter minute_counter day_counter].
  intros [Hs [Hm [Hd _]]]. unfold_limits.
  split_cases; cbn; (split; [lia|]); repeat constructor; lia.
Qed.

(** X3.  In a process whose clock does not run backwards, no timestamp of
    the rate limiter is ever in the future, and one call of [wait_if_needed]
    never blocks for more than a second, a minute and a day together; each
    of its sleeps is positive (so [time.sleep] is never given a negative
    number) and lasts a day at most. *)
Theorem waits_are_bounded t ops :
  Forall forward ops ->
  let w := run ops (booted t) in
  let w' := snd (wait_if_needed w) in
  timestamps_past w /\
  clock w <= clock w' <= clock w + (SECOND + MINUTE + DAY) /\
  Forall (fun us => 0 < us <= DAY) (sleeps (new_events w w')).
Proof.
  intros Hf w w'.
  assert (Hp : timestamps_past w).
  { apply run_timestamps_past; [exact Hf|]. repeat constructor; cbn; lia. }
  split; [exact Hp|]. apply wait_bounded, Hp.
Qed.

Lemma waits_are_bounded_witness :
  Forall forward (Tick 900000 :: one_call) /\
  let w := run (Tick 900000 :: one_call) (booted 0) in
  clock w <= clock (snd (wait_if_needed w)) <= clock w + (SECOND + MINUTE + DAY).
Proof.
  assert (H : Forall forward (Tick 900000 :: one_call)).
  { repeat constructor. cbn. lia. }
  split; [exact H|].
  exact (proj1 (proj2 (waits_are_bounded 0 (Tick 900000 :: one_call) H))).
Defined.

(** ** Rolling windows *)














(** ** [get_new_token] *)

Ltac tok_unfold :=
  cbv beta iota zeta delta
    [get_new_token token_request token_error os_path_exists read_json requests_post exchange
     raise_for_status response_json py_in py_getitem negb
     bind ret raise lift try_except when emit print enter
     clock fs network limiter trace fst snd logged set_network status_code body].

(** One step of the function: the next test whose outcome is not known is
    decided both ways, a test already decided is not decided again. *)
Ltac tok_step :=
  tok_unfold;
  match goal with
  | H : ?m !! ?k = _ |- context [?m !! ?k] => rewrite H
  | H : dict_get ?k ?m = _ |- context [dict_get ?k ?m] => rewrite H
  | H : ?b = _ |- context [if ?b then _ else _] => rewrite H
  | |- context [existsb ?f ?xs] => destruct (existsb f xs) eqn:?
  | |- context [match ?x with _ => _ end] =>
      lazymatch x with
      | context [match _ with _ => _ end] => fail
      | _ => destruct x eqn:?
      end
  end.

Ltac tok_run := repeat tok_step; tok_unfold.

(** X5.  [get_new_token] never raises: it returns a token or [None].  It
    leaves the clock, the files and the rate limiter as they were, sends at
    most one POST, and uses up at most one exchange with the network. *)
Theorem get_new_token_returns_and_keeps_the_world w :
  let w' := snd (get_new_token w) in
  (exists t, fst (get_new_token w) = Ok t) /\
  clock w' = clock w /\ fs w' = fs w /\ limiter w' = limiter w /\
  (length (List.filter is_http_post (new_events w w')) <= 1)%nat /\
  (network w' = network w \/ exists o, network w = o :: network w').
Proof.
  destruct w as [now files net lim tr]. cbv zeta.
  tok_run; new_events_norm; cbn [List.filter is_http_post length];
    repeat split; eauto.
Qed.

(** X6.  [get_new_token] sends its token request exactly when
    [credentials.json] holds a JSON object with both [CLIENT_ID] and
    [CLIENT_SECRET], and then sends it once, to the token URL, with these two
    values and [grant_type=client_credentials].  Without the file it prints
    "Error: credentials.json file not found", without one of the keys
    "Error: CLIENT_ID or CLIENT_SECRET not found in credentials.json"; in
    both cases it returns [None] and the network is not used. *)
Theorem token_request_needs_both_credentials w :
  let evs := new_events w (snd (get_new_token w)) in
  List.filter is_http_post evs =
    match fs w !! "credentials.json" with
    | Some (File (Some (JDict kvs))) =>
        match dict_get "CLIENT_ID" kvs, dict_get "CLIENT_SECRET" kvs with
        | Some client_id, Some client_secret => [token_post client_id client_secret]
        | _, _ => []
        end
    | _ => []
    end /\
  (fs w !! "credentials.json" = None ->
   get_new_token w =
   (Ok JNull,
    logged [Enter "get_new_token"; Print "Error: credentials.json file not found" []] w)) /\
  (forall kvs,
     fs w !! "credentials.json" = Some (File (Some (JDict kvs))) ->
     dict_get "CLIENT_ID" kvs = None \/ dict_get "CLIENT_SECRET" kvs = None ->
     get_new_token w =
     (Ok JNull,
      logged [Enter "get_new_token"; ReadFile "credentials.json";
              Print "Error: CLIENT_ID or CLIENT_SECRET not found in credentials.json" []] w)).
Proof.
  destruct w as [now files net lim tr]. cbv zeta. split; [|split].
  - tok_run; new_events_norm; reflexivity.
  - cbn [fs]. intros H. tok_run. rewrite <- app_assoc. reflexivity.
  - cbn [fs]. intros kvs H Hk.
    destruct Hk as [Hk|Hk]; [|destruct (dict_get "CLIENT_ID" kvs) eqn:E];
      tok_run; rewrite <- ?app_assoc; reflexivity.
Qed.

(** X7.  A token that [get_new_token] returns is the value of
    [access_token] in the JSON object with which the token server answered,
    with a status that is no error status, a request made from complete
    credentials; and whenever that is the situation the function returns
    that value, after exactly these events: the file is read, the request
    announced and sent, the success printed. *)
Theorem a_token_comes_from_the_response w :
  (forall t,
     fst (get_new_token w) = Ok t -> t <> JNull ->
     exists kvs client_id client_secret r rest data,
       fs w !! "credentials.json" = Some (File (Some (JDict kvs))) /\
       dict_get "CLIENT_ID" kvs = Some client_id /\
       dict_get "CLIENT_SECRET" kvs = Some client_secret /\
       network w = Responds r :: rest /\
       ~ 400 <= status_code r < 600 /\
       body r = Ok (JDict data) /\
       dict_get "access_token" data = Some t) /\
  (forall kvs client_id client_secret r rest data t,
     fs w !! "credentials.json" = Some (File (Some (JDict kvs))) ->
     dict_get "CLIENT_ID" kvs = Some client_id ->
     dict_get "CLIENT_SECRET" kvs = Some client_secret ->
     network w = Responds r :: rest ->
     ~ 400 <= status_code r < 600 ->
     body r = Ok (JDict data) ->
     dict_get "access_token" data = Some t ->
     get_new_token w =
     (Ok t,
      set_network rest
        (logged [Enter "get_new_token"; ReadFile "credentials.json";
                 Print "Requesting new access token..." [];
                 token_post client_id client_secret;
                 Print "Successfully obtained new access token" []] w))).
Proof.
  destruct w as [now files net lim tr]. split.
  - intros t. cbn [fs network].
    tok_run; intros Ht Hn; inversion Ht; subst; try congruence.
    match goal with
    | H : (400 <=? ?s) && (?s <? 600) = false |- _ =>
        apply andb_false_iff in H; rewrite Z.leb_gt, Z.ltb_ge in H
    end.
    do 6 eexists. split; [reflexivity|]. split; [eassumption|]. split; [eassumption|].
    split; [reflexivity|]. split; [|split; [reflexivity|eassumption]].
    tok_unfold. lia.
  - intros kvs client_id client_secret [status b] rest data t Hf Hid Hsecret Hnet Hstatus Hbody Ht.
    cbn [fs network status_code body] in *. subst net b.
    assert (Hs : (400 <=? status) && (status <? 600) = false).
    { apply andb_false_iff. destruct (Z.leb_spec 400 status); [|left; reflexivity].
      right. apply Z.ltb_ge. lia. }
    tok_run. unfold token_post. rewrite <- !app_assoc. reflexivity.
Qed.

Lemma a_token_comes_from_the_response_witness :
  fst (get_new_token authorised) = Ok (JStr "fresh").
Proof.
  rewrite (proj2 (a_token_comes_from_the_response authorised)
             [("CLIENT_ID", JStr "id"); ("CLIENT_SECRET", JStr "secret")]
             (JStr "id") (JStr "secret")
             (mkResponse 200 (Ok (JDict [("access_token", JStr "fresh")]))) []
             [("access_token", JStr "fresh")] (JStr "fresh")
             eq_refl eq_refl eq_refl eq_refl ltac:(cbn; lia) eq_refl eq_refl).
  reflexivity.
Defined.

(** X8.  When the token request is sent and fails (no answer, an exception
    raised by [requests.post], an answer with a status from 400 to 599, or a
    body that [response.json()] cannot decode), [get_new_token] returns
    [None] after printing "Error generating new token:" with that
    exception, and nothing else. *)
Theorem a_failed_token_request_gives_None w kvs client_id client_secret e :
  fs w !! "credentials.json" = Some (File (Some (JDict kvs))) ->
  dict_get "CLIENT_ID" kvs = Some client_id ->
  dict_get "CLIENT_SECRET" kvs = Some client_secret ->
  (network w = [] /\ e = ConnectionError) \/
  (exists rest, network w = Fails e :: rest) \/
  (exists r rest, network w = Responds r :: rest /\
                  400 <= status_code r < 600 /\ e = HTTPError) \/
  (exists r rest, network w = Responds r :: rest /\
                  ~ 400 <= status_code r < 600 /\ body r = Raise e) ->
  fst (get_new_token w) = Ok JNull /\
  new_events w (snd (get_new_token w)) =
    [Enter "get_new_token"; ReadFile "credentials.json";
     Print "Requesting new access token..." [];
     token_post client_id client_secret;
     Print "Error generating new token: " [FExn e]].
Proof.
  destruct w as [now files net lim tr]. cbn [fs network].
  intros Hf Hid Hsecret Hcase.
  destruct Hcase as [[-> ->]|[[rest ->]|[[[status b] [rest [-> [Hs ->]]]]
                                        |[[status b] [rest [-> [Hs Hb]]]]]]];
    cbn [status_code body] in *.
  - tok_run. new_events_norm. split; reflexivity.
  - tok_run. new_events_norm. split; reflexivity.
  - assert (Hs' : (400 <=? status) && (status <? 600) = true).
    { apply andb_true_iff. split; [apply Z.leb_le|apply Z.ltb_lt]; lia. }
    tok_run. new_events_norm. split; reflexivity.
  - assert (Hs' : (400 <=? status) && (status <? 600) = false).
    { apply andb_false_iff. destruct (Z.leb_spec 400 status); [|left; reflexivity].
      right. apply Z.ltb_ge. lia. }
    subst b. tok_run. new_events_norm. split; reflexivity.
Qed.

Lemma a_failed_token_request_gives_None_witness :
  fst (get_new_token flaky) = Ok JNull /\
  new_events flaky (snd (get_new_token flaky)) =
    [Enter "get_new_token"; ReadFile "credentials.json";
     Print "Requesting new access token..." [];
     token_post (JStr "id") (JStr "secret");
     Print "Error generating new token: " [FExn ConnectionError]].
Proof.
  apply (a_failed_token_request_gives_None flaky
           [("CLIENT_ID", JStr "id"); ("CLIENT_SECRET", JStr "secret")]);
    [reflexivity|reflexivity|reflexivity|].
  right. left. eexists. reflexivity.
Defined.

(** ** [process_advisories] *)

Section MorePersisting.
Variable py_repr : json -> string.






Lemma writes_flat_map save_path batch :
  writes (flat_map (record_events py_repr save_path) batch) = persisted py_repr save_path batch.
Proof.
  induction batch as [|v batch IH]; [reflexivity|].
  rewrite (persisted_cons py_repr save_path v batch). cbn [flat_map].
  rewrite writes_app, writes_record_events, IH. reflexivity.
Qed.



Lemma persisted_none save_path batch :
  Forall (fun v => identifier v = None) batch -> persisted py_repr save_path batch = [].
Proof.
  induction 1 as [|v batch Hv _ IH]; [reflexivity|].
  rewrite (persisted_cons py_repr save_path v batch), IH.
  unfold persisted. cbn. rewrite Hv. reflexivity.
Qed.

Lemma flat_map_record_events_skips save_path items :
  Forall (fun v => identifier v = None) items ->
  writes (flat_map (record_events py_repr save_path) items) = [].
Proof. intros H. rewrite writes_flat_map. apply persisted_none, H. Qed.

Lemma chars_no_identifier s : Forall (fun v => identifier v = None) (chars s).
Proof. induction s; constructor; [reflexivity|assumption]. Qed.

Lemma keys_no_identifier (kvs : list (string * json)) :
  Forall (fun v => identifier v = None) (map (fun kv => JStr (fst kv)) kvs).
Proof. induction kvs; constructor; [reflexivity|assumption]. Qed.

(** [process_advisories] raises only for a value that is true and has no
    length. *)
Lemma process_advisories_result advisories save_path w :
  fst (process_advisories py_repr advisories save_path w) =
  if truthy advisories && negb (sized advisories) then Raise TypeError else Ok tt.
Proof.
  unfold process_advisories, bind, enter, print, emit. cbv beta iota.
  destruct (truthy advisories) eqn:Et; cbn [negb andb]; [|reflexivity].
  destruct advisories as [|b|n|f|s|xs|kvs]; cbn [sized negb py_len py_iter lift fst];
    try reflexivity; rewrite for_each_advisory; reflexivity.
Qed.

(** X11.  [process_advisories] writes files only for a list.  Given a
    value that counts as false ([None], an empty list, an empty object, ...)
    it prints "No advisories found in the response" and returns; given any
    other value that is not a list it writes nothing and leaves the files
    as they were: an object or a string is gone through key by key or
    character by character and every item skipped, and a number or [True]
    raises [TypeError]. *)
Theorem only_lists_are_persisted advisories save_path w :
  let run := process_advisories py_repr advisories save_path w in
  (truthy advisories = false ->
   run = (Ok tt, logged [Enter "process_advisories";
                         Print "No advisories found in the response" []] w)) /\
  fst run = (if truthy advisories && negb (sized advisories) then Raise TypeError else Ok tt) /\
  ((forall batch, advisories <> JList batch) ->
   fs (snd run) = fs w /\ writes (new_events w (snd run)) = []).
Proof.
  cbv zeta. split; [|split; [apply process_advisories_result|]].
  - destruct w as [now files net lim tr].
    unfold process_advisories, bind, enter, print, emit, logged. cbv beta iota.
    cbn [clock fs network limiter trace].
    intros ->. cbn [negb]. cbv beta iota. cbn [trace]. rewrite <- app_assoc. reflexivity.
  - destruct w as [now files net lim tr].
    unfold process_advisories, bind, enter, print, emit, logged. cbv beta iota.
    cbn [clock fs network limiter trace].
    intros Hl.
    destruct (truthy advisories) eqn:Et; cbn [negb];
      [|cbn [fst snd fs]; split; [reflexivity|new_events_norm; reflexivity]].
    destruct advisories as [|b|n|f|s|xs|kvs]; cbn [py_len py_iter lift fst snd fs];
      try (split; [reflexivity|cbn [fst snd]; new_events_norm; reflexivity]).
    + rewrite for_each_advisory. cbn [snd fs trace].
      rewrite (persisted_none save_path _ (chars_no_identifier s)).
      split; [reflexivity|]. new_events_norm. cbn [writes].
      apply flat_map_record_events_skips, chars_no_identifier.
    + exfalso. apply (Hl xs). reflexivity.
    + rewrite for_each_advisory. cbn [snd fs trace].
      rewrite (persisted_none save_path _ (keys_no_identifier kvs)).
      split; [reflexivity|]. new_events_norm. cbn [writes].
      apply flat_map_record_events_skips, keys_no_identifier.
Qed.
End MorePersisting.



(** ** What [download_csaf] does with the response *)

Section Responses.
Variable py_repr : json -> string.

(** [handle_response], branch by branch. *)
Lemma handle_response_run r save_path w :
  handle_response py_repr r save_path w =
  if status_code r =? 403 then
    (Ok false, logged [Print "Error 403 Forbidden: Token may be expired or invalid" []] w)
  else if error_status (status_code r) then (Raise HTTPError, w)
  else
    match body r with
    | Raise e => (Raise e, w)
    | Ok data =>
        let w1 := logged [Print "Response type: " [FType data]] w in
        match advisories_of data with
        | Some advisories =>
            let (res, w2) := process_advisories py_repr advisories save_path w1 in
            match res with
            | Ok _ => (Ok true, w2)
            | Raise e => (Raise e, w2)
            end
        | None =>
            (Ok true,
             logged [Print "Unexpected response format: " [FType data];
                     Print "" [FDump data; FStr "..."]] w1)
        end
    end.
Proof.
  unfold handle_response, error_status, raise_for_status, response_json.
  destruct (status_code r =? 403); [reflexivity|].
  destruct ((400 <=? status_code r) && (status_code r <? 600)); [reflexivity|].
  destruct (body r) as [data|e]; [|reflexivity].
  cbv beta iota zeta delta [bind ret lift raise print emit logged].
  cbn [clock fs network limiter trace].
  destruct data as [| | | | |xs|kvs]; cbn [advisories_of clock fs network limiter trace];
    try (rewrite <- ?app_assoc; reflexivity).
  destruct (dict_get "advisories" kvs);
    [reflexivity|cbn [clock fs network limiter trace]; rewrite <- ?app_assoc; reflexivity].
Qed.

(** [download_csaf] once the request is answered. *)
Lemma download_csaf_responded save_path auth_token mode days w url r rest :
  fst (request_url mode days w) = Ok (Some url) ->
  network w = Responds r :: rest ->
  download_csaf py_repr save_path auth_token mode days w =
  try_except (handle_response py_repr r save_path) on_error
             (requested save_path url (request_headers py_repr auth_token) rest w).
Proof.
  intros Hurl Hnet. rewrite download_csaf_run.
  destruct (prepared_appends save_path w) as [pre [_ [_ [Hclk [_ Hnet']]]]].
  assert (Hurl' : fst (request_url mode days (prepared save_path w)) = Ok (Some url)).
  { rewrite (request_url_frame _ _ _ _ Hurl _ Hclk). reflexivity. }
  unfold try_except. rewrite (attempt_run py_repr _ _ _ _ _ _ Hurl'). cbv zeta.
  rewrite Hnet', Hnet. reflexivity.
Qed.

Lemma requested_fs save_path url headers rest w :
  fs (requested save_path url headers rest w) = fs (prepared save_path w).
Proof. unfold requested. cbn. apply wait_if_needed_fs. Qed.

Lemma logged_fs evs w : fs (logged evs w) = fs w.
Proof. reflexivity. Qed.

Lemma logged_requested_fs evs save_path url headers rest w :
  fs (logged evs (requested save_path url headers rest w)) = fs (prepared save_path w).
Proof. rewrite logged_fs. apply requested_fs. Qed.

Lemma not_error_status status :
  ~ 400 <= status < 600 -> error_status status = false /\ (status =? 403) = false.
Proof.
  intros H. unfold error_status. split.
  - apply andb_false_iff. destruct (Z.leb_spec 400 status); [|left; reflexivity].
    right. apply Z.ltb_ge. lia.
  - apply Z.eqb_neq. lia.
Qed.

Lemma error_status_tried r save_path w :
  400 <= status_code r < 600 ->
  try_except (handle_response py_repr r save_path) on_error w =
  (Ok false,
   logged [if status_code r =? 403
           then Print "Error 403 Forbidden: Token may be expired or invalid" []
           else Print "Error retrieving CSAF list: " [FExn HTTPError]] w).
Proof.
  intros Hs. unfold try_except. rewrite handle_response_run.
  assert (He : error_status (status_code r) = true).
  { unfold error_status. apply andb_true_iff. split; [apply Z.leb_le|apply Z.ltb_lt]; lia. }
  rewrite He.
  destruct (status_code r =? 403); [|rewrite on_error_run]; reflexivity.
Qed.

Lemma unexpected_format_tried r save_path w data :
  ~ 400 <= status_code r < 600 ->
  body r = Ok data ->
  advisories_of data = None ->
  try_except (handle_response py_repr r save_path) on_error w =
  (Ok true,
   logged [Print "Response type: " [FType data];
           Print "Unexpected response format: " [FType data];
           Print "" [FDump data; FStr "..."]] w).
Proof.
  intros Hs Hb Ha. unfold try_except. rewrite handle_response_run.
  destruct (not_error_status _ Hs) as [-> ->]. rewrite Hb. cbv zeta. rewrite Ha.
  unfold logged. cbn [clock fs network limiter trace]. rewrite <- app_assoc. reflexivity.
Qed.

(** X12.  When the request is answered with a status from 400 to 599,
    [download_csaf] returns [False] and the only thing it does after
    counting the request is to print one line: "Error 403 Forbidden: Token
    may be expired or invalid" for 403 and "Error retrieving CSAF list:"
    with the [HTTPError] of [raise_for_status] for every other such status.
    The body of the response is not looked at, no stack trace is printed and
    no file is written. *)
Theorem error_statuses_are_failures save_path auth_token mode days w url r rest :
  fst (request_url mode days w) = Ok (Some url) ->
  network w = Responds r :: rest ->
  400 <= status_code r < 600 ->
  let run := download_csaf py_repr save_path auth_token mode days w in
  let message :=
    if status_code r =? 403
    then Print "Error 403 Forbidden: Token may be expired or invalid" []
    else Print "Error retrieving CSAF list: " [FExn HTTPError] in
  run = (Ok false,
         logged [message] (requested save_path url (request_headers py_repr auth_token) rest w)) /\
  fs (snd run) = fs (prepared save_path w).
Proof.
  intros Hurl Hnet Hs. cbv zeta.
  rewrite (download_csaf_responded _ _ _ _ _ _ _ _ Hurl Hnet).
  rewrite (error_status_tried _ _ _ Hs).
  split; [reflexivity|apply logged_requested_fs].
Qed.

(** X13.  When the answer is neither a list nor an object with the key
    [advisories], [download_csaf] prints the type of the answer,
    "Unexpected response format:" and the start of the answer, writes no
    file, and returns [True]: an answer it cannot use counts as a success. *)
Theorem unexpected_formats_count_as_success save_path auth_token mode days w url r rest data :
  fst (request_url mode days w) = Ok (Some url) ->
  network w = Responds r :: rest ->
  ~ 400 <= status_code r < 600 ->
  body r = Ok data ->
  advisories_of data = None ->
  let run := download_csaf py_repr save_path auth_token mode days w in
  run = (Ok true,
         logged [Print "Response type: " [FType data];
                 Print "Unexpected response format: " [FType data];
                 Print "" [FDump data; FStr "..."]]
                (requested save_path url (request_headers py_repr auth_token) rest w)) /\
  fs (snd run) = fs (prepared save_path w).
Proof.
  intros Hurl Hnet Hs Hb Ha. cbv zeta.
  rewrite (download_csaf_responded _ _ _ _ _ _ _ _ Hurl Hnet).
  rewrite (unexpected_format_tried _ _ _ _ Hs Hb Ha).
  split; [reflexivity|apply logged_requested_fs].
Qed.


Lemma http_gets_of_quota_view evs :
  List.filter is_http_get evs = List.filter is_http_get (quota_view evs).
Proof.
  induction evs as [|e evs IH]; [reflexivity|].
  destruct e; cbn [List.filter quota_view is_http_get]; try exact IH.
  - unfold quota_view in *. cbn [List.filter]. destruct (String.eqb fn "increment"); cbn; exact IH.
  - unfold quota_view in *. cbn [List.filter is_http_get]. f_equal. exact IH.
Qed.

(** The requests and increments of one [download_csaf] that gets as far as
    the request. *)
Lemma download_csaf_quota save_path auth_token mode days w url :
  fst (request_url mode days w) = Ok (Some url) ->
  quota_view (new_events w (snd (download_csaf py_repr save_path auth_token mode days w))) =
  HttpGet url (request_headers py_repr auth_token) ::
  match network w with Responds _ :: _ => [Enter "increment"] | _ => [] end.
Proof.
  intros Hurl.
  rewrite download_csaf_run.
  destruct (prepared_appends save_path w) as [pre [Hpre [Qpre [Hclk [Hlim Hnet]]]]].
  assert (Hurl' : fst (request_url mode days (prepared save_path w)) = Ok (Some url)).
  { rewrite (request_url_frame _ _ _ _ Hurl _ Hclk). reflexivity. }
  unfold try_except. rewrite (attempt_run py_repr _ _ _ _ _ _ Hurl'). cbv zeta.
  rewrite Hnet.
  destruct (wait_if_needed_quiet (prepared save_path w)) as [evs1 [H1 Q1]].
  set (w1 := snd (wait_if_needed (prepared save_path w))) in *.
  destruct (network w) as [|[resp|e] rest].
  - rewrite on_error_run.
    erewrite new_events_of
      by (cbn [snd logged trace]; rewrite H1, Hpre, <- !app_assoc; reflexivity).
    rewrite !quota_view_app, Qpre, Q1, error_events_quiet. reflexivity.
  - set (w5 := snd (increment _)).
    destruct (handle_response_quiet py_repr resp save_path w5) as [evs6 [H6 [Q6 L6]]].
    assert (H5 : trace w5 = trace w ++ pre ++ evs1 ++
                   [Print "Requesting advisories from: " [FStr url];
                    HttpGet url (request_headers py_repr auth_token); Enter "increment"]).
    { subst w5. cbn [snd increment]. cbn. rewrite H1, Hpre, <- !app_assoc. reflexivity. }
    destruct (handle_response py_repr resp save_path w5) as [[b|e] w6];
      cbn [snd fst] in *; rewrite ?on_error_run; cbn [snd logged limiter trace].
    + rewrite H5, <- !app_assoc in H6. rewrite (new_events_of _ _ _ H6).
      rewrite !quota_view_app, Qpre, Q1, Q6. reflexivity.
    + rewrite H5, <- !app_assoc in H6.
      erewrite new_events_of by (cbn [logged trace]; rewrite H6, <- !app_assoc; reflexivity).
      rewrite !quota_view_app, Qpre, Q1, Q6, error_events_quiet. reflexivity.
  - rewrite on_error_run.
    erewrite new_events_of
      by (cbn [snd logged set_network trace]; rewrite H1, Hpre, <- !app_assoc; reflexivity).
    rewrite !quota_view_app, Qpre, Q1, error_events_quiet. reflexivity.
Qed.


(** X16.  [download_csaf] prints a stack trace exactly when its [try]
    block raises an exception that is not a [RequestException]; a failure
    of the connection, a timeout or an HTTP error status never gives one. *)
Theorem a_traceback_needs_an_unexpected_exception save_path auth_token mode days w :
  let run := download_csaf py_repr save_path auth_token mode days w in
  let tried := attempt py_repr save_path (request_headers py_repr auth_token) mode days
                       (prepared save_path w) in
  existsb is_traceback (new_events w (snd run)) = true <->
  exists e, fst tried = Raise e /\ is_request_exception e = false.
Proof.
  cbv zeta. rewrite download_csaf_run.
  destruct (tried_split py_repr save_path (request_headers py_repr auth_token) mode days
              (prepared save_path w)) as [a [b [Ht [_ [Qa Hcase]]]]].
  cbv zeta in *.
  destruct (prepared_appends save_path w) as [pre [Hpre _]].
  assert (Hpre' : existsb is_traceback pre = false).
  { unfold prepared, logged in Hpre. destruct (fs w !! save_path); cbn [trace] in Hpre;
      apply app_inv_head in Hpre; subst pre; reflexivity. }
  rewrite Hpre, <- app_assoc in Ht. rewrite (new_events_of _ _ _ Ht).
  rewrite !existsb_app, Hpre'.
  rewrite (existsb_quiet is_traceback vocab_attempt a)
    by (try exact Qa; intros [] H; cbn in *; congruence).
  cbn [orb].
  destruct Hcase as [[r [Hb [_ [-> _]]]]|[e [Hb [_ [-> _]]]]].
  - rewrite Hb. split; [discriminate|]. intros [e [He _]]. discriminate.
  - rewrite Hb. unfold error_events. destruct (is_request_exception e) eqn:Ereq; cbn.
    + split; [discriminate|]. intros [e' [He' Hr]]. inversion He'; subst. congruence.
    + split; [|reflexivity]. intros _. exists e. split; [reflexivity|exact Ereq].
Qed.

(** ** The date range, for every number of days *)

Lemma request_url_dates_valid days w :
  valid_datetime (clock w) -> valid_datetime (clock w - days * DAY) ->
  request_url "dates" days w =
  (Ok (Some (CISCO_API_BASE_URL +:+ "/lastpublished?startDate=" +:+
             strftime_Ymd (clock w - days * DAY) +:+ "&endDate=" +:+ strftime_Ymd (clock w))), w).
Proof.
  intros [Hlo Hhi] [Hlo' Hhi'].
  unfold request_url. cbn [String.eqb Ascii.eqb Bool.eqb].
  unfold bind, datetime_now, lift, timedelta_days.
  destruct (Z.ltb_spec days (-999999999)); [unfold DAY, SECOND, MAXORDINAL in *; lia|].
  destruct (Z.ltb_spec 999999999 days); [unfold DAY, SECOND, MAXORDINAL in *; lia|].
  cbn [orb]. unfold datetime_sub.
  destruct (Z.leb_spec 0 (clock w - days * DAY)); [|lia].
  destruct (Z.ltb_spec (clock w - days * DAY) (MAXORDINAL * DAY)); [|lia].
  reflexivity.
Qed.

Lemma request_url_dates_overflow days w :
  valid_datetime (clock w) -> ~ valid_datetime (clock w - days * DAY) ->
  request_url "dates" days w = (Raise OverflowError, w).
Proof.
  intros [Hlo Hhi] Hbad. unfold valid_datetime in Hbad.
  unfold request_url. cbn [String.eqb Ascii.eqb Bool.eqb].
  unfold bind, datetime_now, lift, timedelta_days.
  destruct ((days <? -999999999) || (999999999 <? days)); [reflexivity|].
  unfold datetime_sub.
  destruct (Z.leb_spec 0 (clock w - days * DAY)); [|reflexivity].
  destruct (Z.ltb_spec (clock w - days * DAY) (MAXORDINAL * DAY)); [lia|reflexivity].
Qed.

(** X17.  The number of days is not checked.  With [days = 0] the URL
    asks for the range from today to today, and with a negative number for a
    range whose start date lies after its end date, [-days] days in the
    future; the request is made all the same. *)
Theorem days_are_not_checked days w :
  days <= 0 -> valid_datetime (clock w) -> valid_datetime (clock w - days * DAY) ->
  let S := ord2ymd (clock w / DAY + 1 - days) in
  let E := ord2ymd (clock w / DAY + 1) in
  request_url "dates" days w =
    (Ok (Some (CISCO_API_BASE_URL +:+ "/lastpublished?startDate=" +:+ iso_date S +:+
               "&endDate=" +:+ iso_date E)), w) /\
  toordinal S = toordinal E - days /\
  toordinal E <= toordinal S /\
  (days = 0 -> S = E).
Proof.
  intros Hd Hv Hv'. cbv zeta.
  rewrite (request_url_dates_valid days w Hv Hv').
  unfold strftime_Ymd. rewrite date_of_days_before. unfold date_of.
  split; [reflexivity|].
  destruct (toordinal_ord2ymd (clock w / DAY + 1 - days)) as [HS1 _].
  destruct (toordinal_ord2ymd (clock w / DAY + 1)) as [HE1 _].
  rewrite HS1, HE1. split; [reflexivity|]. split; [lia|].
  intros ->. rewrite Z.sub_0_r. reflexivity.
Qed.

(** X18.  In mode [dates], when the start date falls outside the years 1
    to 9999 (too many days back, or forward), building the URL raises
    [OverflowError]; [download_csaf] then prints "Unexpected error:" and a
    stack trace and returns [False], having made the directory and nothing
    else: no wait, no request, no change of the counters. *)
Theorem a_start_date_out_of_range_fails save_path auth_token days w :
  valid_datetime (clock w) -> ~ valid_datetime (clock w - days * DAY) ->
  download_csaf py_repr save_path auth_token "dates" days w =
  (Ok false,
   logged [Print "Unexpected error: " [FExn OverflowError]; Traceback OverflowError]
          (prepared save_path w)).
Proof.
  intros Hv Hbad. rewrite download_csaf_run.
  destruct (prepared_appends save_path w) as [pre [_ [_ [Hclk _]]]].
  unfold try_except, attempt, bind.
  rewrite request_url_dates_overflow by (rewrite Hclk; assumption).
  rewrite on_error_run. reflexivity.
Qed.
End Responses.

Lemma error_statuses_are_failures_witness :
  fst (request_url "all" 2 refused) = Ok (Some CISCO_API_BASE_URL) /\
  network refused = [Responds (mkResponse 403 (Raise JSONDecodeError))] /\
  400 <= 403 < 600 /\
  fst (download_csaf sample_repr "downloaded_csaf" (JStr "token") "all" 2 refused) = Ok false.
Proof.
  split; [reflexivity|]. split; [reflexivity|]. split; [lia|].
  rewrite (proj1 (error_statuses_are_failures sample_repr "downloaded_csaf" (JStr "token") "all" 2
                    refused CISCO_API_BASE_URL (mkResponse 403 (Raise JSONDecodeError)) []
                    eq_refl eq_refl ltac:(cbn; lia))).
  reflexivity.
Defined.

Lemma unexpected_formats_count_as_success_witness :
  fst (request_url "all" 2 surprising) = Ok (Some CISCO_API_BASE_URL) /\
  advisories_of (JDict [("message", JStr "ok")]) = None /\
  fst (download_csaf sample_repr "downloaded_csaf" (JStr "token") "all" 2 surprising) = Ok true.
Proof.
  split; [reflexivity|]. split; [reflexivity|].
  rewrite (proj1 (unexpected_formats_count_as_success sample_repr "downloaded_csaf" (JStr "token")
                    "all" 2 surprising CISCO_API_BASE_URL
                    (mkResponse 200 (Ok (JDict [("message", JStr "ok")]))) []
                    (JDict [("message", JStr "ok")])
                    eq_refl eq_refl ltac:(cbn; lia) eq_refl eq_refl)).
  reflexivity.
Defined.

Lemma days_are_not_checked_witness :
  -1 <= 0 /\ valid_datetime (clock march_10) /\ valid_datetime (clock march_10 - -1 * DAY) /\
  request_url "dates" (-1) march_10 =
    (Ok (Some "https://apix.cisco.com/security/advisories/v2/all/lastpublished?startDate=2024-03-11&endDate=2024-03-10"),
     march_10).
Proof.
  assert (H1 : valid_datetime (clock march_10)).
  { vm_compute. split; [discriminate|reflexivity]. }
  assert (H2 : valid_datetime (clock march_10 - -1 * DAY)).
  { vm_compute. split; [discriminate|reflexivity]. }
  split; [lia|]. split; [exact H1|]. split; [exact H2|].
  refine (eq_trans (proj1 (days_are_not_checked (-1) march_10 _ H1 H2)) _).
  - lia.
  - vm_compute. reflexivity.
Defined.

Lemma a_start_date_out_of_range_fails_witness :
  valid_datetime (clock march_10) /\ ~ valid_datetime (clock march_10 - 1000000 * DAY) /\
  fst (download_csaf sample_repr "out" (JStr "token") "dates" 1000000 march_10) = Ok false.
Proof.
  assert (H1 : valid_datetime (clock march_10)).
  { vm_compute. split; [discriminate|reflexivity]. }
  assert (H2 : ~ valid_datetime (clock march_10 - 1000000 * DAY)).
  { vm_compute. intros [H _]. apply H. reflexivity. }
  split; [exact H1|]. split; [exact H2|].
  rewrite (a_start_date_out_of_range_fails sample_repr "out" (JStr "token") 1000000 march_10 H1 H2).
  reflexivity.
Defined.

(** ** The token and the limiter in [main] *)

Section MoreDriver.
Variable py_repr : json -> string.

Lemma attempts_ignores_token p token1 token2 m d auth_token :
  attempts py_repr (mkArgs p token1 m d) auth_token =
  attempts py_repr (mkArgs p token2 m d) auth_token.
Proof. unfold attempts. cbn [path mode days]. reflexivity. Qed.

(** X19.  An empty [--token] is no token: [main] then does exactly what it
    does when the option is absent, starting with [get_new_token]. *)
Theorem an_empty_token_counts_as_none save_path mode days w :
  main py_repr (mkArgs save_path (Some "") mode days) w =
  main py_repr (mkArgs save_path None mode days) w.
Proof.
  unfold main, cli_token. cbn [token truthy negb String.eqb]. unfold bind.
  destruct (enter "main" w) as [[[]|e] w0]; [|reflexivity].
  destruct (print _ _ w0) as [[[]|e] w1]; [|reflexivity].
  destruct (get_new_token w1) as [[t|e] w2]; [|reflexivity].
  destruct (negb (truthy t)); [reflexivity|].
  rewrite (attempts_ignores_token save_path (Some "") None). reflexivity.
Qed.

Lemma get_new_token_keeps_limiter : inv (keeps limiter) get_new_token.
Proof. unfold get_new_token, token_request, token_error; unfold_prims. inv_keeps_with fail. Qed.

Ltac known_calls :=
  idtac; match goal with
  | |- inv (appends _) (download_csaf _ _ _ _ _) =>
      apply (inv_weaken _ vocab_download); [vocab_solve|apply download_csaf_vocab]
  | |- inv (appends _) get_new_token =>
      apply (inv_weaken _ vocab_token); [vocab_solve|apply get_new_token_vocab]
  end.

Lemma logged_limiter evs w : limiter (logged evs w) = limiter w.
Proof. reflexivity. Qed.

Lemma truthy_JStr s : s <> "" -> truthy (JStr s) = true.
Proof. intros H. cbn. destruct (String.eqb_spec s ""); [contradiction|reflexivity]. Qed.

Lemma attempts_first args auth_token w :
  let first := download_csaf py_repr (path args) auth_token (mode args) (days args)
                             (snd (RateLimiter_init w)) in
  fst first = Ok true -> attempts py_repr args auth_token w = (Ok tt, snd first).
Proof.
  cbv zeta. unfold attempts, bind. rewrite RateLimiter_init_run. cbv beta iota. cbn [snd].
  destruct (download_csaf _ _ _ _ _ _) as [r1 w1]. cbn [fst snd]. intros ->. reflexivity.
Qed.

(** X20.  With a token given on the command line, [main] goes straight to
    the download with that token; when this first download succeeds the run
    ends there, and [credentials.json] was never read nor a token
    requested. *)
Theorem a_given_token_needs_no_credentials args s w :
  token args = Some s -> s <> "" ->
  let first := download_csaf py_repr (path args) (JStr s) (mode args) (days args)
                             (snd (RateLimiter_init (logged [Enter "main"] w))) in
  let evs := new_events w (snd first) in
  fst first = Ok true ->
  main py_repr args w = (Ok tt, snd first) /\
  existsb is_read evs = false /\ existsb is_http_post evs = false.
Proof.
  intros Htok Hs. cbv zeta. intros Hfirst. split.
  - unfold main, cli_token. rewrite Htok, (truthy_JStr s Hs). cbn [negb]. unfold bind, enter, emit.
    cbv beta iota.
    change (mkWorld (clock w) (fs w) (network w) (limiter w) (trace w ++ [Enter "main"]))
      with (logged [Enter "main"] w).
    apply attempts_first, Hfirst.
  - clear Hfirst.
    set (w1 := snd (RateLimiter_init (logged [Enter "main"] w))).
    assert (H0 : trace w1 = trace w ++ [Enter "main"; Enter "RateLimiter.__init__"]).
    { subst w1. rewrite RateLimiter_init_run. cbn [snd logged trace].
      rewrite <- app_assoc. reflexivity. }
    destruct (download_csaf_vocab py_repr (path args) (JStr s) (mode args) (days args) w1)
      as [evs1 [H1 Q1]].
    rewrite H0, <- app_assoc in H1. rewrite (new_events_of _ _ _ H1).
    rewrite !existsb_app.
    rewrite (existsb_quiet is_read vocab_download evs1)
      by (try exact Q1; intros [] H; cbn in *; congruence).
    rewrite (existsb_quiet is_http_post vocab_download evs1)
      by (try exact Q1; intros [] H; cbn in *; congruence).
    split; reflexivity.
Qed.

Lemma retry_vocab args auth_token :
  inv (appends vocab_retry)
      (success ← download_csaf py_repr (path args) auth_token (mode args) (days args);
       when (negb success)
         (print "Initial download attempt failed. Attempting to refresh token and retry..." [];;
          new_token ← get_new_token;
          if truthy new_token then
            print "Retrying download with new token..." [];;
            _ ← download_csaf py_repr (path args) new_token (mode args) (days args);
            ret tt
          else
            print "Failed to obtain new token. Cannot retry download." [])).
Proof. unfold print. inv_appends_with known_calls. Qed.

Lemma attempts_trace args auth_token w :
  exists evs,
    trace (snd (attempts py_repr args auth_token w)) =
      trace w ++ Enter "RateLimiter.__init__" :: evs /\
    forallb vocab_retry evs = true.
Proof.
  unfold attempts. unfold bind at 1. rewrite RateLimiter_init_run. cbv beta iota.
  match goal with |- context [snd (?k ?x)] =>
    destruct (retry_vocab args auth_token x) as [evs [H Q]]
  end.
  exists evs. split; [|exact Q].
  rewrite H. cbn [trace]. rewrite <- app_assoc. reflexivity.
Qed.

(** X21.  [main] creates the rate limiter once.  The second download,
    when there is one, is handed the same limiter in the state in which the
    first download left it ([get_new_token] does not touch it), so both
    requests of a run count against the same windows. *)
Theorem both_attempts_share_one_limiter args auth_token w t :
  let run := attempts py_repr args auth_token w in
  let first := download_csaf py_repr (path args) auth_token (mode args) (days args)
                             (snd (RateLimiter_init w)) in
  let refresh := get_new_token (logged [Print MSG_FIRST_FAILED []] (snd first)) in
  let second_start := logged [Print "Retrying download with new token..." []] (snd refresh) in
  calls_of "RateLimiter.__init__" (new_events w (snd run)) = 1%nat /\
  (fst first = Ok false -> fst refresh = Ok t -> truthy t = true ->
   limiter second_start = limiter (snd first) /\
   snd run = snd (download_csaf py_repr (path args) t (mode args) (days args) second_start)).
Proof.
  cbv zeta. split.
  - destruct (attempts_trace args auth_token w) as [evs [H Q]].
    rewrite (new_events_of _ _ _ H).
    change (Enter "RateLimiter.__init__" :: evs) with ([Enter "RateLimiter.__init__"] ++ evs).
    rewrite calls_of_app.
    rewrite (calls_of_quiet "RateLimiter.__init__" vocab_retry evs ltac:(vocab_solve) Q).
    reflexivity.
  - intros Hfirst Hrefresh Ht. split.
    + rewrite logged_limiter.
      etransitivity; [apply (get_new_token_keeps_limiter _)|apply logged_limiter].
    + rewrite (attempts_second_call py_repr args auth_token w t Hfirst Hrefresh), Ht. reflexivity.
Qed.
End MoreDriver.

Lemma a_given_token_needs_no_credentials_witness :
  token (mkArgs "downloaded_csaf" (Some "token") "all" 2) = Some "token" /\ "token" <> "" /\
  fst (main sample_repr (mkArgs "downloaded_csaf" (Some "token") "all" 2) served) = Ok tt.
Proof.
  split; [reflexivity|]. split; [discriminate|].
  rewrite (proj1 (a_given_token_needs_no_credentials sample_repr
                    (mkArgs "downloaded_csaf" (Some "token") "all" 2) "token" served
                    eq_refl ltac:(discriminate) eq_refl)).
  reflexivity.
Defined.

(** ** Calls that follow one another *)

(** X22.  Right after [wait_if_needed] has returned, a second call returns
    at once, without sleeping or printing: the first call leaves every
    counter below its limit. *)
Theorem a_second_wait_returns_at_once w :
  let w1 := snd (wait_if_needed w) in
  let w2 := snd (wait_if_needed w1) in
  new_events w1 w2 = [Enter "wait_if_needed"] /\ clock w2 = clock w1.
Proof.
  cbv zeta. apply wait_below.
  destruct (wait_if_needed_below w) as [Hs [Hm Hd]]. cbv zeta in *.
  unfold windows. repeat constructor; assumption.
Qed.

Section Again.
Variable py_repr : json -> string.







Lemma no_http_get evs : existsb is_http_get evs = false -> List.filter is_http_get evs = [].
Proof.
  induction evs as [|e evs IH]; [reflexivity|]. cbn [existsb List.filter].
  destruct (is_http_get e); [discriminate|]. exact IH.
Qed.

(** The requests of one [download_csaf] in mode [all]. *)
Lemma download_csaf_all_gets save_path auth_token days w :
  exists evs,
    trace (snd (download_csaf py_repr save_path auth_token "all" days w)) = trace w ++ evs /\
    List.filter is_http_get evs =
      [HttpGet CISCO_API_BASE_URL (request_headers py_repr auth_token)].
Proof.
  destruct (download_csaf_vocab py_repr save_path auth_token "all" days w) as [evs [H _]].
  exists evs. split; [exact H|].
  rewrite <- (new_events_of _ _ _ H), http_gets_of_quota_view.
  rewrite (download_csaf_quota py_repr save_path auth_token "all" days w CISCO_API_BASE_URL eq_refl).
  destruct (network w) as [|[r|e] rest]; reflexivity.
Qed.

(** X25.  In mode [all], when the first download fails and the refresh
    yields a token, the run makes exactly two GET requests, both to the base
    URL: the first with the token [main] started with and the second with
    the new token in its [Authorization] header. *)
Theorem the_retry_carries_the_new_token args auth_token w t :
  let run := attempts py_repr args auth_token w in
  let first := download_csaf py_repr (path args) auth_token (mode args) (days args)
                             (snd (RateLimiter_init w)) in
  let refresh := get_new_token (logged [Print MSG_FIRST_FAILED []] (snd first)) in
  mode args = "all" ->
  fst first = Ok false -> fst refresh = Ok t -> truthy t = true ->
  List.filter is_http_get (new_events w (snd run)) =
    [HttpGet CISCO_API_BASE_URL (request_headers py_repr auth_token);
     HttpGet CISCO_API_BASE_URL (request_headers py_repr t)].
Proof.
  cbv zeta. intros Hmode Hfirst Hrefresh Ht.
  rewrite (attempts_second_call py_repr args auth_token w t Hfirst Hrefresh), Ht.
  rewrite Hmode in *.
  set (w0 := snd (RateLimiter_init w)) in *.
  assert (H0 : trace w0 = trace w ++ [Enter "RateLimiter.__init__"]) by reflexivity.
  destruct (download_csaf_all_gets (path args) auth_token (days args) w0) as [evs1 [H1 G1]].
  set (w1 := snd (download_csaf py_repr (path args) auth_token "all" (days args) w0)) in *.
  destruct (get_new_token_counts (logged [Print MSG_FIRST_FAILED []] w1))
    as [t' [evs2 [_ [H2 [_ [_ [G2 _]]]]]]].
  set (w2 := snd (get_new_token (logged [Print MSG_FIRST_FAILED []] w1))) in *.
  destruct (download_csaf_all_gets (path args) t (days args)
              (logged [Print "Retrying download with new token..." []] w2)) as [evs3 [H3 G3]].
  cbn [logged trace] in H2, H3.
  rewrite H2, H1, H0, <- !app_assoc in H3.
  rewrite (new_events_of _ _ _ H3).
  rewrite !List.filter_app, G1, (no_http_get _ G2), G3. reflexivity.
Qed.
End Again.


Lemma the_retry_carries_the_new_token_witness :
  mode (mkArgs "downloaded_csaf" (Some "stale") "all" 2) = "all" /\
  List.filter is_http_get
    (new_events expired
       (snd (attempts sample_repr (mkArgs "downloaded_csaf" (Some "stale") "all" 2)
               (JStr "stale") expired))) =
    [HttpGet CISCO_API_BASE_URL (request_headers sample_repr (JStr "stale"));
     HttpGet CISCO_API_BASE_URL (request_headers sample_repr (JStr "fresh"))].
Proof.
  split; [reflexivity|].
  exact (the_retry_carries_the_new_token sample_repr
           (mkArgs "downloaded_csaf" (Some "stale") "all" 2) (JStr "stale") expired (JStr "fresh")
           eq_refl eq_refl eq_refl eq_refl).
Defined.
